(** * gold-tracker: the 22K gold price alert job (main.go)

    The job is one sequential pipeline: load the alert flag from
    [state.json], fetch the gold price per ounce, convert it to a 22K price
    per gram, notify through Pushover when the price is at or under the
    target, reset the flag when the price is back above target + buffer.

    The development embeds main.go function by function.
    - [float64] values are IEEE 754 binary64 numbers, taken from the
      Standard Library's [SpecFloat] at precision 53 and exponent bound 1024;
      every operation rounds to nearest, ties to even, as Go's do.
    - [encoding/json], [strconv] and [fmt] are Go's standard library; the
      parts main.go calls are embedded from their documented behaviour.
    - The network and the file system answer through an environment record;
      what the job does to them is collected in a trace of events. *)

From Stdlib Require Import ZArith List String Ascii Bool Lia.
From Stdlib Require Import DecimalString.
From Stdlib Require Import Floats.SpecFloat.
Import ListNotations.

Set Warnings "-register-all".

Local Open Scope string_scope.
Local Open Scope Z_scope.

(** ** float64 *)

Definition float64 : Type := spec_float.

Module F64.

Definition prec : Z := 53.
Definition emax : Z := 1024.

Definition mul : float64 -> float64 -> float64 := SFmul prec emax.
Definition div : float64 -> float64 -> float64 := SFdiv prec emax.
Definition leb : float64 -> float64 -> bool := SFleb.
Definition ltb : float64 -> float64 -> bool := SFltb.

(** [x > y] in Go is [y < x]; both are false when either side is NaN. *)
Definition gtb (x y : float64) : bool := ltb y x.

Definition zero : float64 := S754_zero false.

(** The binary64 number nearest to [m * 10^e10], negated when [neg]:
    the value of a decimal constant of the program converted to float64,
    and of a decimal literal read by [strconv.ParseFloat]. A quotient is
    rounded once, from the exact quotient and the position of the
    remainder. *)
Definition of_decimal (neg : bool) (m : Z) (e10 : Z) : float64 :=
  match m with
  | Z0 => S754_zero neg
  | Zpos p =>
      if 0 <=? e10
      then binary_round prec emax neg (p * Z.to_pos (10 ^ e10)) 0
      else
        let '(q, e, l) :=
          SFdiv_core_binary prec emax (Zpos p) 0 (10 ^ (- e10)) 0 in
        binary_round_aux prec emax neg q e l
  | Zneg _ => S754_nan
  end.

Definition of_Z (n : Z) : float64 := of_decimal (n <? 0) (Z.abs n) 0.

Definition is_finite (x : float64) : bool :=
  match x with
  | S754_zero _ | S754_finite _ _ _ => true
  | _ => false
  end.

End F64.

(** ** strconv / fmt: the verb [%.2f] *)

Module Fmt.

(** [n / d] rounded to the nearest integer, halves to the even one
    ([d > 0], [n >= 0]). *)
Definition div_half_even (n d : Z) : Z :=
  let (q, r) := Z.div_eucl n d in
  match 2 * r ?= d with
  | Lt => q
  | Gt => q + 1
  | Eq => if Z.even q then q else q + 1
  end.

(** The integer nearest to [m * 2^e * 10^nd]: the digits
    [strconv.FormatFloat] keeps at precision [nd], which it rounds from
    the exact decimal expansion of the binary value. *)
Definition scaled (m : positive) (e : Z) (nd : Z) : Z :=
  if 0 <=? e
  then Zpos m * 2 ^ e * 10 ^ nd
  else div_half_even (Zpos m * 10 ^ nd) (2 ^ (- e)).

Definition digits (n : Z) : string :=
  NilZero.string_of_uint (N.to_uint (Z.to_N n)).

Fixpoint zeros (k : nat) : string :=
  match k with
  | O => ""
  | S k' => String "0" (zeros k')
  end.

(** [n] on [k] digits, zeros to the left. *)
Definition pad_digits (k : nat) (n : Z) : string :=
  let d := digits n in
  zeros (k - String.length d) ++ d.

Definition sign (s : bool) : string := if s then "-" else "".

(** [fmt.Sprintf("%.<nd>f", x)] for [nd > 0]. *)
Definition fixed (nd : nat) (x : float64) : string :=
  match x with
  | S754_nan => "NaN"
  | S754_infinity false => "+Inf"
  | S754_infinity true => "-Inf"
  | S754_zero s => sign s ++ "0." ++ zeros nd
  | S754_finite s m e =>
      let n := scaled m e (Z.of_nat nd) in
      let p := 10 ^ Z.of_nat nd in
      sign s ++ digits (n / p) ++ "." ++ pad_digits nd (n mod p)
  end.

End Fmt.

(** ** encoding/json

    [json.Unmarshal] first checks that the whole input is one JSON value
    (white space around it allowed) and stores nothing otherwise;
    [Decoder.Decode] reads the first JSON value of a stream. Both then
    store the value into the target: object keys are matched to the tags of
    the struct's fields, exactly or up to the case of ASCII letters; a value
    whose kind does not fit the field is skipped, the error is remembered
    and decoding goes on; [null] leaves the field as it is; unknown keys are
    ignored. *)

Module Json.

Inductive value : Type :=
| Null
| Bool (b : bool)
| Number (lit : string)
| Str (s : string)
| Array (elems : list value)
| Object (members : list (string * value)).

(** *** Bytes *)

Definition between (lo hi c : ascii) : bool :=
  ((N_of_ascii lo <=? N_of_ascii c) && (N_of_ascii c <=? N_of_ascii hi))%N.

Definition is_space (c : ascii) : bool :=
  ((c =? " ") || (c =? "009") || (c =? "013") || (c =? "010"))%char.

Definition is_digit (c : ascii) : bool := between "0" "9" c.

Definition is_hex (c : ascii) : bool :=
  is_digit c || between "a" "f" c || between "A" "F" c.

Definition hex_val (c : ascii) : Z :=
  let n := Z.of_N (N_of_ascii c) in
  if is_digit c then n - 48
  else if between "a" "f" c then n - 87
  else n - 55.

Definition byte (n : Z) : ascii := ascii_of_N (Z.to_N n).

Definition quote : ascii := "034".
Definition backslash : ascii := "092".

(** [utf8.EncodeRune]. *)
Definition utf8 (r : Z) : string :=
  if r <=? 127 then String (byte r) ""
  else if r <=? 2047 then
    String (byte (192 + r / 64)) (String (byte (128 + r mod 64)) "")
  else if (r >? 1114111) || ((55296 <=? r) && (r <=? 57343)) then
    String "239" (String "191" (String "189" ""))
  else if r <=? 65535 then
    String (byte (224 + r / 4096))
      (String (byte (128 + (r / 64) mod 64))
         (String (byte (128 + r mod 64)) ""))
  else
    String (byte (240 + r / 262144))
      (String (byte (128 + (r / 4096) mod 64))
         (String (byte (128 + (r / 64) mod 64))
            (String (byte (128 + r mod 64)) ""))).

Definition hex4 (a b c d : ascii) : Z :=
  ((hex_val a * 16 + hex_val b) * 16 + hex_val c) * 16 + hex_val d.

Definition is_u4 (e u a b c d : ascii) : bool :=
  ((e =? backslash) && (u =? "u"))%char
  && is_hex a && is_hex b && is_hex c && is_hex d.

Definition unescape (c : ascii) : ascii :=
  if (c =? "b")%char then "008"
  else if (c =? "f")%char then "012"
  else if (c =? "n")%char then "010"
  else if (c =? "r")%char then "013"
  else if (c =? "t")%char then "009"
  else c.

(** [unquote]: the text of a string literal, from what stands between
    its quotes. A [\u] escape of a surrogate is joined with a following
    escape of a low surrogate, and is U+FFFD alone. Bytes from 128 on are
    copied: Go copies well-formed UTF-8 and writes U+FFFD for an ill-formed
    sequence, which in either case leaves no ASCII byte, so that no field
    name matches differently. *)
Fixpoint unquote (s : string) : string :=
  match s with
  | "" => ""
  | String c rest =>
      if (c =? backslash)%char then
        match rest with
        | "" => ""
        | String u rest1 =>
            if (u =? "u")%char then
              match rest1 with
              | String h1 (String h2 (String h3 (String h4 rest2))) =>
                  let r := hex4 h1 h2 h3 h4 in
                  if (55296 <=? r) && (r <? 57344) then
                    match rest2 with
                    | String e2 (String u2 (String l1 (String l2
                        (String l3 (String l4 rest3))))) =>
                        let r2 := hex4 l1 l2 l3 l4 in
                        if is_u4 e2 u2 l1 l2 l3 l4
                           && (r <? 56320)
                           && (56320 <=? r2) && (r2 <? 57344)
                        then
                          utf8 ((r - 55296) * 1024 + (r2 - 56320) + 65536)
                            ++ unquote rest3
                        else utf8 65533 ++ unquote rest2
                    | _ => utf8 65533 ++ unquote rest2
                    end
                  else utf8 r ++ unquote rest2
              | _ => ""
              end
            else String (unescape u) (unquote rest1)
        end
      else String c (unquote rest)
  end.

(** *** The grammar

    Tokens are read byte by byte and handed to a parser that keeps the
    stack of the containers still open: the parse stack of Go's scanner,
    here with the members read so far. *)

Inductive token : Type :=
| TOpenBrace | TCloseBrace | TOpenBracket | TCloseBracket
| TColon | TComma
| TScalar (v : value).

Inductive frame : Type :=
| InArray (done : list value)
| InObject (done : list (string * value)) (key : option string).

Inductive expect : Type :=
| WantValue | WantValueOrClose | WantKeyOrClose | WantKey
| WantColon | WantCommaOrClose.

Inductive parsed : Type :=
| Continue (stack : list frame) (e : expect)
| Complete (v : value)
| Invalid.

Definition maxNestingDepth : N := 10000.

Definition close_value (stack : list frame) (v : value) : parsed :=
  match stack with
  | [] => Complete v
  | InArray done :: up =>
      Continue (InArray (v :: done) :: up) WantCommaOrClose
  | InObject done (Some k) :: up =>
      Continue (InObject ((k, v) :: done) None :: up) WantCommaOrClose
  | InObject _ None :: _ => Invalid
  end.

Definition open_container (stack : list frame) (f : frame) (e : expect)
  : parsed :=
  if (N.of_nat (List.length stack) <? maxNestingDepth)%N
  then Continue (f :: stack) e
  else Invalid.

Definition begin_value (stack : list frame) (t : token) : parsed :=
  match t with
  | TScalar v => close_value stack v
  | TOpenBracket => open_container stack (InArray []) WantValueOrClose
  | TOpenBrace => open_container stack (InObject [] None) WantKeyOrClose
  | _ => Invalid
  end.

Definition close_container (stack : list frame) (t : token) : parsed :=
  match stack, t with
  | InArray done :: up, TCloseBracket => close_value up (Array (rev done))
  | InObject done None :: up, TCloseBrace =>
      close_value up (Object (rev done))
  | _, _ => Invalid
  end.

Definition set_key (stack : list frame) (k : string) : parsed :=
  match stack with
  | InObject done None :: up =>
      Continue (InObject done (Some k) :: up) WantColon
  | _ => Invalid
  end.

Definition parse_token (stack : list frame) (e : expect) (t : token)
  : parsed :=
  match e with
  | WantValue => begin_value stack t
  | WantValueOrClose =>
      match t with
      | TCloseBracket => close_container stack t
      | _ => begin_value stack t
      end
  | WantKeyOrClose =>
      match t with
      | TCloseBrace => close_container stack t
      | TScalar (Str k) => set_key stack k
      | _ => Invalid
      end
  | WantKey =>
      match t with
      | TScalar (Str k) => set_key stack k
      | _ => Invalid
      end
  | WantColon =>
      match t with
      | TColon => Continue stack WantValue
      | _ => Invalid
      end
  | WantCommaOrClose =>
      match t with
      | TComma =>
          match stack with
          | InArray _ :: _ => Continue stack WantValue
          | InObject _ _ :: _ => Continue stack WantKey
          | [] => Invalid
          end
      | TCloseBracket | TCloseBrace => close_container stack t
      | _ => Invalid
      end
  end.

(** The states of a number literal, as in Go's scanner: an optional
    minus sign; a zero, or a digit from 1 to 9 and any digits; optionally
    a point and one digit or more; optionally [e] or [E], an optional sign
    and one digit or more. *)
Inductive numstate : Type :=
| NumNeg | Num0 | Num1 | NumDot | NumDot0 | NumE | NumESign | NumE0.

Inductive lexmode : Type :=
| Between
| InString (raw : list ascii)
| InStringEsc (raw : list ascii)
| InStringEscU (more : nat) (raw : list ascii)
| InNumber (st : numstate) (lit : list ascii)
| InLiteral (rest : string) (v : value).

Definition text (rev_bytes : list ascii) : string :=
  string_of_list_ascii (rev rev_bytes).

(** What a byte does to the scan: go on, end the top-level value (having
    used the byte or not), or reject the input. *)
Inductive fed : Type :=
| Go (m : lexmode) (stack : list frame) (e : expect)
| Ended (v : value) (used : bool)
| Rejected.

Definition emit (stack : list frame) (e : expect) (t : token) : fed :=
  match parse_token stack e t with
  | Continue stack' e' => Go Between stack' e'
  | Complete v => Ended v true
  | Invalid => Rejected
  end.

(** The state a number begins in, on its first byte. *)
Definition num_start (c : ascii) : option numstate :=
  if (c =? "-")%char then Some NumNeg
  else if (c =? "0")%char then Some Num0
  else if is_digit c then Some Num1
  else None.

(** The next state of a number on byte [c]; [None] when [c] is not part of
    the number. *)
Definition num_next (st : numstate) (c : ascii) : option numstate :=
  match st with
  | NumNeg =>
      if (c =? "0")%char then Some Num0
      else if is_digit c then Some Num1 else None
  | Num1 =>
      if is_digit c then Some Num1
      else if (c =? ".")%char then Some NumDot
      else if ((c =? "e") || (c =? "E"))%char then Some NumE
      else None
  | Num0 =>
      if (c =? ".")%char then Some NumDot
      else if ((c =? "e") || (c =? "E"))%char then Some NumE
      else None
  | NumDot => if is_digit c then Some NumDot0 else None
  | NumDot0 =>
      if is_digit c then Some NumDot0
      else if ((c =? "e") || (c =? "E"))%char then Some NumE
      else None
  | NumE =>
      if ((c =? "+") || (c =? "-"))%char then Some NumESign
      else if is_digit c then Some NumE0 else None
  | NumESign => if is_digit c then Some NumE0 else None
  | NumE0 => if is_digit c then Some NumE0 else None
  end.

(** The states in which a number may end. *)
Definition num_final (st : numstate) : bool :=
  match st with
  | Num0 | Num1 | NumDot0 | NumE0 => true
  | _ => false
  end.

Fixpoint num_run (st : numstate) (s : string) : option numstate :=
  match s with
  | "" => Some st
  | String c rest =>
      match num_next st c with
      | Some st' => num_run st' rest
      | None => None
      end
  end.

(** The texts that are JSON number literals. *)
Definition number_literal (lit : string) : bool :=
  match lit with
  | "" => false
  | String c rest =>
      match num_start c with
      | Some st =>
          match num_run st rest with
          | Some st' => num_final st'
          | None => false
          end
      | None => false
      end
  end.

Definition feed_between (stack : list frame) (e : expect) (c : ascii)
  : fed :=
  if is_space c then Go Between stack e
  else if (c =? "{")%char then emit stack e TOpenBrace
  else if (c =? "}")%char then emit stack e TCloseBrace
  else if (c =? "[")%char then emit stack e TOpenBracket
  else if (c =? "]")%char then emit stack e TCloseBracket
  else if (c =? ":")%char then emit stack e TColon
  else if (c =? ",")%char then emit stack e TComma
  else if (c =? quote)%char then Go (InString []) stack e
  else if (c =? "t")%char then Go (InLiteral "rue" (Bool true)) stack e
  else if (c =? "f")%char then Go (InLiteral "alse" (Bool false)) stack e
  else if (c =? "n")%char then Go (InLiteral "ull" Null) stack e
  else
    match num_start c with
    | Some st => Go (InNumber st [c]) stack e
    | None => Rejected
    end.

Definition feed (m : lexmode) (stack : list frame) (e : expect)
  (c : ascii) : fed :=
  match m with
  | Between => feed_between stack e c
  | InString raw =>
      if (c =? quote)%char
      then emit stack e (TScalar (Str (unquote (text raw))))
      else if (c =? backslash)%char then Go (InStringEsc (c :: raw)) stack e
      else if (N_of_ascii c <? 32)%N then Rejected
      else Go (InString (c :: raw)) stack e
  | InStringEsc raw =>
      if (c =? "u")%char then Go (InStringEscU 4 (c :: raw)) stack e
      else if ((c =? "b") || (c =? "f") || (c =? "n") || (c =? "r")
               || (c =? "t") || (c =? backslash) || (c =? "/")
               || (c =? quote))%char
      then Go (InString (c :: raw)) stack e
      else Rejected
  | InStringEscU more raw =>
      if is_hex c then
        match more with
        | S (S k) => Go (InStringEscU (S k) (c :: raw)) stack e
        | _ => Go (InString (c :: raw)) stack e
        end
      else Rejected
  | InNumber st lit =>
      match num_next st c with
      | Some st' => Go (InNumber st' (c :: lit)) stack e
      | None =>
          if num_final st then
            match parse_token stack e (TScalar (Number (text lit))) with
            | Continue stack' e' => feed_between stack' e' c
            | Complete v => Ended v false
            | Invalid => Rejected
            end
          else Rejected
      end
  | InLiteral rest v =>
      match rest with
      | String c' rest' =>
          if (c =? c')%char then
            match rest' with
            | "" => emit stack e (TScalar v)
            | _ => Go (InLiteral rest' v) stack e
            end
          else Rejected
      | "" => Rejected
      end
  end.

(** At the end of the input only a number can still be open. *)
Definition feed_eof (m : lexmode) (stack : list frame) (e : expect)
  : option value :=
  match m with
  | InNumber st lit =>
      if num_final st then
        match parse_token stack e (TScalar (Number (text lit))) with
        | Complete v => Some v
        | _ => None
        end
      else None
  | _ => None
  end.

(** The first JSON value of [input] and what follows it. *)
Fixpoint scan (m : lexmode) (stack : list frame) (e : expect)
  (input : string) : option (value * string) :=
  match input with
  | "" =>
      match feed_eof m stack e with
      | Some v => Some (v, "")
      | None => None
      end
  | String c rest =>
      match feed m stack e c with
      | Go m' stack' e' => scan m' stack' e' rest
      | Ended v true => Some (v, rest)
      | Ended v false => Some (v, input)
      | Rejected => None
      end
  end.

Definition scan_value (input : string) : option (value * string) :=
  scan Between [] WantValue input.

Fixpoint all_space (s : string) : bool :=
  match s with
  | "" => true
  | String c rest => is_space c && all_space rest
  end.

(** [checkValid] of [json.Unmarshal]: the input is one value, with white
    space only around it. *)
Definition parse (data : string) : option value :=
  match scan_value data with
  | Some (v, rest) => if all_space rest then Some v else None
  | None => None
  end.

(** The value [Decoder.Decode] reads from a stream: the first one. The
    scanner ends a top-level value at the byte after it, whatever that byte
    is, and the decoder stops there: what follows the value is left unread,
    white space or not. *)
Definition read_value (stream : string) : option value :=
  match scan_value stream with
  | Some (v, _) => Some v
  | None => None
  end.

(** *** Storing a value into a struct with one tagged field *)

Definition fold_byte (c : ascii) : ascii :=
  if between "a" "z" c then byte (Z.of_N (N_of_ascii c) - 32) else c.

Fixpoint fold_name (s : string) : string :=
  match s with
  | "" => ""
  | String c rest => String (fold_byte c) (fold_name rest)
  end.

(** A key names the field tagged [tag] when both are equal up to the case
    of ASCII letters. (Go also folds the Kelvin sign to [k] and the long s
    to [s]; the tags of this program hold neither letter.) *)
Definition key_matches (tag key : string) : bool :=
  (fold_name tag =? fold_name key)%string.

Inductive error : Type :=
| SyntaxError
| UnmarshalTypeError.

Section OneField.
Context {A : Type}.
Variable tag : string.
(** What a value stores into the field; [None] when its kind does not fit
    the field's type. *)
Variable store : value -> A -> option A.

(** The members of an object in order: a later member for the same field
    overwrites an earlier one, a member that does not fit is skipped and
    the first such error is kept. *)
Fixpoint store_members (ms : list (string * value)) (x : A)
  (err : option error) : A * option error :=
  match ms with
  | [] => (x, err)
  | (k, v) :: rest =>
      if key_matches tag k then
        match store v x with
        | Some x' => store_members rest x' err
        | None =>
            store_members rest x
              (match err with
               | Some e => Some e
               | None => Some UnmarshalTypeError
               end)
        end
      else store_members rest x err
  end.

Definition store_struct (v : value) (x : A) : A * option error :=
  match v with
  | Null => (x, None)
  | Object ms => store_members ms x None
  | _ => (x, Some UnmarshalTypeError)
  end.

(** [json.Unmarshal(data, &x)]. *)
Definition Unmarshal (data : string) (x : A) : A * option error :=
  match parse data with
  | Some v => store_struct v x
  | None => (x, Some SyntaxError)
  end.

(** [json.NewDecoder(stream).Decode(&x)]. *)
Definition Decode (stream : string) (x : A) : A * option error :=
  match read_value stream with
  | Some v => store_struct v x
  | None => (x, Some SyntaxError)
  end.
End OneField.

Definition store_bool (v : value) (b : bool) : option bool :=
  match v with
  | Null => Some b
  | Bool b' => Some b'
  | _ => None
  end.

Fixpoint read_digits (acc n : Z) (s : string) : Z * Z * string :=
  match s with
  | "" => (acc, n, s)
  | String c rest =>
      if is_digit c
      then read_digits (acc * 10 + hex_val c) (n + 1) rest
      else (acc, n, s)
  end.

Definition read_sign (s : string) : bool * string :=
  match s with
  | String c rest =>
      if (c =? "-")%char then (true, rest)
      else if (c =? "+")%char then (false, rest)
      else (false, s)
  | "" => (false, s)
  end.

(** [strconv.ParseFloat(lit, 64)] on a JSON number literal: the nearest
    float64; [None] is the range error of a literal that rounds to an
    infinity. *)
Definition ParseFloat (lit : string) : option float64 :=
  let (neg, s1) := read_sign lit in
  let '(int_part, _, s2) := read_digits 0 0 s1 in
  let '(mant, nfrac, s3) :=
    match s2 with
    | String c rest =>
        if (c =? ".")%char then read_digits int_part 0 rest
        else (int_part, 0, s2)
    | "" => (int_part, 0, s2)
    end in
  let e10 :=
    match s3 with
    | String c rest =>
        if ((c =? "e") || (c =? "E"))%char then
          let (eneg, s4) := read_sign rest in
          let '(ev, _, _) := read_digits 0 0 s4 in
          if eneg then - ev else ev
        else 0
    | "" => 0
    end in
  let x := F64.of_decimal neg mant (e10 - nfrac) in
  if F64.is_finite x then Some x else None.

Definition store_float64 (v : value) (x : float64) : option float64 :=
  match v with
  | Null => Some x
  | Number lit => ParseFloat lit
  | _ => None
  end.

Definition quoted (s : string) : string :=
  String quote (s ++ String quote "").

Definition newline : string := String "010" "".

(** [json.MarshalIndent(x, "", "  ")] of a struct with one field tagged
    [tag] whose value prints as [v]. *)
Definition MarshalIndent_one (tag v : string) : string :=
  "{" ++ newline ++ "  " ++ quoted tag ++ ": " ++ v ++ newline ++ "}".

End Json.

(** ** The world of the job

    The program talks to three things: the file [state.json], the price
    API and the Pushover API. What they answer in one run is fixed by an
    environment; what the job does is recorded, in order, in a trace. *)

(** What an HTTP call comes back with: no response (the client's error) or
    a response with its status and body. *)
Inductive response : Type :=
| NoResponse
| Response (StatusCode : Z) (Body : string).

(** The errors of main.go: the client's error, [fmt.Errorf] on a status other
    than 200, and the JSON decoder's error. *)
Inductive error : Type :=
| TransportError
| StatusError (service : string) (code : Z)
| DecodeError (e : Json.error).

Record Env : Type := {
  goldAPIKey : string;
  pushoverAppToken : string;
  pushoverUserKey : string;
  (** the answer to the GET of the price *)
  goldapi : response;
  (** the answer to the POST of the notification *)
  pushover : response;
  (** whether [os.WriteFile] succeeds *)
  disk_ok : bool
}.

Inductive logline : Type :=
| JobStarted
| PriceFetchFailed (err : error)
| Gold24K (price : string)
| Gold22K (price : string)
| PushoverError (err : error)
| PushoverAlertSent
| ResettingAlertState.

Inductive event : Type :=
| Logged (l : logline)
| ReadFile (name : string)
| WriteFile (name : string) (data : string) (perm : Z)
| HttpGet (url : string) (header : list (string * string))
| HttpPostForm (url : string) (form : list (string * string)).

Record World : Type := {
  (** the content of [state.json]; [None] when it cannot be read *)
  file : option string;
  trace : list event
}.

(** The computations of the job: a state monad over the world. *)
Definition IO (A : Type) : Type := World -> A * World.

Definition ret {A : Type} (a : A) : IO A := fun w => (a, w).

Definition bind {A B : Type} (m : IO A) (k : A -> IO B) : IO B :=
  fun w => let (a, w') := m w in k a w'.

Declare Scope io_scope.
Delimit Scope io_scope with io.
Notation "x <- m ;; k" := (bind m (fun x => k))
  (at level 61, m at next level, right associativity) : io_scope.
Notation "m ;; k" := (bind m (fun _ => k))
  (at level 61, right associativity) : io_scope.
Local Open Scope io_scope.

Definition emit (ev : event) : IO unit :=
  fun w => (tt, {| file := file w; trace := trace w ++ [ev] |}).

Definition log (l : logline) : IO unit := emit (Logged l).

(** [os.ReadFile]. *)
Definition os_ReadFile (name : string) : IO (option string) :=
  emit (ReadFile name) ;; (fun w => (file w, w)).

(** [os.WriteFile]: the file holds [data] afterwards when the write
    succeeds and is left as it was when the file cannot be opened for
    writing; the result is whether it succeeded. *)
Definition os_WriteFile (env : Env) (name data : string) (perm : Z)
  : IO bool :=
  emit (WriteFile name data perm) ;;
  (fun w =>
     if disk_ok env
     then (true, {| file := Some data; trace := trace w |})
     else (false, w)).

(** ** main.go *)

Definition stateFile : string := "state.json".

(** The untyped constants of the alert configuration; they are exact, and
    so is their sum. *)
Definition targetGoldPrice22K : Z := 12700.
Definition resetBuffer : Z := 200.

Record State : Type := { AlertTriggered : bool }.

Record GoldAPIResponse : Type := { PricePerOunce : float64 }.

Definition ounceToGram : float64 := F64.of_decimal false 311035 (-4).
Definition purityFactor : float64 := F64.of_decimal false 916 (-3).
Definition gstFactor : float64 := F64.of_decimal false 103 (-2).

Definition convertTo22K (price24K : float64) : float64 :=
  F64.mul (F64.mul price24K purityFactor) gstFactor.

(** The state [loadState] makes of what [os.ReadFile] returned. *)
Definition state_of_file (content : option string) : State :=
  match content with
  | None => {| AlertTriggered := false |}
  | Some data =>
      {| AlertTriggered :=
           fst (Json.Unmarshal "alert_triggered" Json.store_bool data false) |}
  end.

Definition loadState : IO State :=
  content <- os_ReadFile stateFile ;;
  ret (state_of_file content).

Definition marshal_State (s : State) : string :=
  Json.MarshalIndent_one "alert_triggered"
    (if AlertTriggered s then "true" else "false").

Definition saveState (env : Env) (s : State) : IO unit :=
  os_WriteFile env stateFile (marshal_State s) 420 ;; ret tt.

(** [json.NewDecoder(resp.Body).Decode(&data)], [data] the zero value. *)
Definition decode_GoldAPIResponse (body : string)
  : GoldAPIResponse * option Json.error :=
  let (price, err) :=
    Json.Decode "price" Json.store_float64 body F64.zero in
  ({| PricePerOunce := price |}, err).

(** What [fetchGoldPricePerGram] makes of the answer of the price API. *)
Definition price_of_response (r : response) : float64 + error :=
  match r with
  | NoResponse => inr TransportError
  | Response code body =>
      if negb (code =? 200) then inr (StatusError "goldapi" code)
      else
        match decode_GoldAPIResponse body with
        | (_, Some e) => inr (DecodeError e)
        | (data, None) => inl (F64.div (PricePerOunce data) ounceToGram)
        end
  end.

Definition fetchGoldPricePerGram (env : Env) : IO (float64 + error) :=
  emit (HttpGet "https://www.goldapi.io/api/XAU/INR"
          [("x-access-token", goldAPIKey env);
           ("Content-Type", "application/json")]) ;;
  ret (price_of_response (goldapi env)).

Definition error_of_post (r : response) : option error :=
  match r with
  | NoResponse => Some TransportError
  | Response code _ =>
      if negb (code =? 200) then Some (StatusError "pushover" code) else None
  end.

Definition sendPushover (env : Env) (message : string) : IO (option error) :=
  emit (HttpPostForm "https://api.pushover.net/1/messages.json"
          [("token", pushoverAppToken env);
           ("user", pushoverUserKey env);
           ("title", "🚨 Gold Price Alert");
           ("message", message);
           ("priority", "1")]) ;;
  ret (error_of_post (pushover env)).

(** The message of the alert:
    [fmt.Sprintf("22K Gold hit ₹%.2f / gram\nTarget: ₹%.2f", ...)]. *)
Definition alert_message (price22K : float64) : string :=
  "22K Gold hit ₹" ++ Fmt.fixed 2 price22K ++ " / gram" ++ Json.newline
  ++ "Target: ₹" ++ Fmt.fixed 2 (F64.of_Z targetGoldPrice22K).

Definition alert_due (price22K : float64) (state : State) : bool :=
  F64.leb price22K (F64.of_Z targetGoldPrice22K)
  && negb (AlertTriggered state).

Definition reset_due (price22K : float64) (state : State) : bool :=
  F64.gtb price22K (F64.of_Z (targetGoldPrice22K + resetBuffer))
  && AlertTriggered state.

(** The second [if] of [run], reached with the state the first one left. *)
Definition reset_logic (env : Env) (price22K : float64) (state : State)
  : IO State :=
  if reset_due price22K state then
    log ResettingAlertState ;;
    let state := {| AlertTriggered := false |} in
    saveState env state ;;
    ret state
  else ret state.

(** [run]; its value is the local variable [state] when it returns. *)
Definition run (env : Env) : IO State :=
  state <- loadState ;;
  fetched <- fetchGoldPricePerGram env ;;
  match fetched with
  | inr err => log (PriceFetchFailed err) ;; ret state
  | inl price24K =>
      let price22K := convertTo22K price24K in
      log (Gold24K (Fmt.fixed 2 price24K)) ;;
      log (Gold22K (Fmt.fixed 2 price22K)) ;;
      if alert_due price22K state then
        let msg := alert_message price22K in
        sent <- sendPushover env msg ;;
        match sent with
        | Some err => log (PushoverError err) ;; ret state
        | None =>
            log PushoverAlertSent ;;
            let state := {| AlertTriggered := true |} in
            saveState env state ;;
            reset_logic env price22K state
        end
      else reset_logic env price22K state
  end.

Definition main (env : Env) : IO State :=
  log JobStarted ;; run env.

(** The world a run starts in. *)
Definition start (content : option string) : World :=
  {| file := content; trace := [] |}.

(** The messages posted to Pushover in a trace, and the data written to the
    state file. *)
Fixpoint notifications (tr : list event) : list string :=
  match tr with
  | [] => []
  | HttpPostForm _ form :: rest =>
      match find (fun kv => (fst kv =? "message")%string) form with
      | Some kv => snd kv :: notifications rest
      | None => "" :: notifications rest
      end
  | _ :: rest => notifications rest
  end.

Fixpoint writes (tr : list event) : list (string * string) :=
  match tr with
  | [] => []
  | WriteFile name data _ :: rest => (name, data) :: writes rest
  | _ :: rest => writes rest
  end.

Definition idle : State := {| AlertTriggered := false |}.
Definition triggered : State := {| AlertTriggered := true |}.

(** The trace every run begins with: the state file is read, then the
    price is requested. *)
Definition prologue (env : Env) : list event :=
  [ReadFile stateFile;
   HttpGet "https://www.goldapi.io/api/XAU/INR"
     [("x-access-token", goldAPIKey env);
      ("Content-Type", "application/json")]].

(** The events of a run, as the lemmas below name them. *)

Definition price_lines (price24K : float64) : list event :=
  [Logged (Gold24K (Fmt.fixed 2 price24K));
   Logged (Gold22K (Fmt.fixed 2 (convertTo22K price24K)))].

Definition post (env : Env) (message : string) : event :=
  HttpPostForm "https://api.pushover.net/1/messages.json"
    [("token", pushoverAppToken env);
     ("user", pushoverUserKey env);
     ("title", "🚨 Gold Price Alert");
     ("message", message);
     ("priority", "1")].

Definition save (s : State) : event :=
  WriteFile stateFile (marshal_State s) 420.

(** The file after [saveState s] in a world that held [old]. *)
Definition saved (env : Env) (old : option string) (s : State)
  : option string :=
  if disk_ok env then Some (marshal_State s) else old.

(** The other state. *)
Definition flip (s : State) : State :=
  {| AlertTriggered := negb (AlertTriggered s) |}.

(** [needle] occurs in [hay]. *)
Fixpoint contains (needle hay : string) : bool :=
  String.prefix needle hay
  || match hay with
     | "" => false
     | String _ rest => contains needle rest
     end.

(** ** Shapes of a state file *)

(** The value is an object with a member named exactly [key]. *)
Definition has_key (key : string) (v : Json.value) : bool :=
  match v with
  | Json.Object ms => existsb (fun kv => (fst kv =? key)%string) ms
  | _ => false
  end.

(** The value is an object with a member that the decoder takes for the
    field tagged [tag]. *)
Definition has_field (tag : string) (v : Json.value) : bool :=
  match v with
  | Json.Object ms => existsb (fun kv => Json.key_matches tag (fst kv)) ms
  | _ => false
  end.

Definition is_true (v : Json.value) : bool :=
  match v with
  | Json.Bool true => true
  | _ => false
  end.

(** The value is an object with a member for the field tagged [tag] whose
    value is [true]. *)
Definition holds_true (tag : string) (v : Json.value) : bool :=
  match v with
  | Json.Object ms =>
      existsb (fun kv => Json.key_matches tag (fst kv) && is_true (snd kv)) ms
  | _ => false
  end.

(** [Unmarshal] of the state file reports an error. *)
Definition unmarshal_fails (data : string) : bool :=
  match snd (Json.Unmarshal "alert_triggered" Json.store_bool data false) with
  | Some _ => true
  | None => false
  end.

(** ** Example worlds *)

Definition price_body (lit : string) : string :=
  "{" ++ Json.quoted "price" ++ ": " ++ lit ++ "}".

Definition example_env (api notifier : response) : Env :=
  {| goldAPIKey := "gold-key";
     pushoverAppToken := "app-token";
     pushoverUserKey := "user-key";
     goldapi := api;
     pushover := notifier;
     disk_ok := true |}.

(** 387000 per ounce is 12442.33 per gram, 11739.09 for 22K: under the
    target. *)
Definition low_price : response := Response 200 (price_body "387000.0").
Definition low_price24K : float64 := S754_finite false 6840243058647933 (-39).

(** 422000 per ounce is 12800.76 for 22K: above the target, not above
    target + buffer. *)
Definition mid_price : response := Response 200 (price_body "422000").
Definition mid_price24K : float64 :=
  F64.div (F64.of_decimal false 422000 0) ounceToGram.

(** 500000 per ounce is 15166.78 for 22K: above target + buffer. *)
Definition high_price : response := Response 200 (price_body "500000.0").
Definition high_price24K : float64 :=
  F64.div (F64.of_decimal false 500000 0) ounceToGram.

Definition accepted : response := Response 200 "{}".
Definition refused : response := Response 500 "".

(** A state file with the key twice, the second time with a number. *)
Definition twice_keyed_file : string :=
  "{" ++ Json.quoted "alert_triggered" ++ ":true,"
  ++ Json.quoted "alert_triggered" ++ ":0}".

(** A state file with the key in capitals. *)
Definition capital_keyed_file : string :=
  "{" ++ Json.quoted "ALERT_TRIGGERED" ++ ":true}".

(** A state file cut short. *)
Definition truncated_file : string :=
  "{" ++ Json.quoted "alert_triggered" ++ ": tr".

(** The message of the alert at 387000 per ounce. *)
Definition low_price_message : string :=
  "22K Gold hit ₹11739.09 / gram" ++ Json.newline ++ "Target: ₹12700.00".

(** ** Runs one after the other, and the bands of the price *)

(** The job run once per environment, each run starting from the state file
    the run before left. *)
Fixpoint runs (envs : list Env) (content : option string)
  : list (State * World) :=
  match envs with
  | [] => []
  | env :: rest =>
      let r := run env (start content) in
      r :: runs rest (file (snd r))
  end.

Definition is_nan (x : float64) : bool :=
  match x with
  | S754_nan => true
  | _ => false
  end.

(** The three bands the two comparisons of [run] cut the prices into. *)
Definition at_or_under_target (p : float64) : bool :=
  F64.leb p (F64.of_Z targetGoldPrice22K).

Definition in_dead_zone (p : float64) : bool :=
  F64.gtb p (F64.of_Z targetGoldPrice22K)
  && F64.leb p (F64.of_Z (targetGoldPrice22K + resetBuffer)).

Definition above_reset (p : float64) : bool :=
  F64.gtb p (F64.of_Z (targetGoldPrice22K + resetBuffer)).

(** The price [env] answers with does not call for a reset: there is no
    price, or it is not above target + buffer. *)
Definition no_reset_price (env : Env) : bool :=
  match price_of_response (goldapi env) with
  | inl price24K => negb (above_reset (convertTo22K price24K))
  | inr _ => true
  end.

(** The run sends nothing and writes nothing. *)
Definition silent (r : State * World) : Prop :=
  notifications (trace (snd r)) = [] /\ writes (trace (snd r)) = [].

(** The body has no price to give: it is [null], or an object without a
    member for the field [price]. *)
Definition lacks_price (v : Json.value) : bool :=
  match v with
  | Json.Null => true
  | Json.Object _ => negb (has_field "price" v)
  | _ => false
  end.

(** The members of an object that the decoder takes for the field. *)
Definition members_for (tag : string) (ms : list (string * Json.value))
  : list (string * Json.value) :=
  filter (fun kv => Json.key_matches tag (fst kv)) ms.

(** A state file with a member the program does not know. *)
Definition annotated_file : string :=
  "{" ++ Json.quoted "note" ++ ": [1, 2], "
  ++ Json.quoted "alert_triggered" ++ ": true}".

(** * Properties *)

(** ** The order of float64 against the two thresholds *)

Section Thresholds.

Lemma target_value :
  F64.of_Z targetGoldPrice22K = S754_finite false 6981898836377600 (-39).
Proof. reflexivity. Qed.

Lemma reset_value :
  F64.of_Z (targetGoldPrice22K + resetBuffer)
  = S754_finite false 7091849999155200 (-39).
Proof. reflexivity. Qed.

Lemma SFcompare_antisym (x y : float64) :
  SFcompare y x = option_map CompOpp (SFcompare x y).
Proof.
  destruct x as [sx | sx | | sx mx ex], y as [sy | sy | | sy my ey];
    simpl; try (destruct sx); try (destruct sy); try reflexivity;
    rewrite (Z.compare_antisym ex ey);
    destruct (ex ?= ey); simpl; try reflexivity;
    pose proof (Pos.compare_cont_antisym mx my Eq) as Hm; simpl in Hm;
    rewrite <- Hm; try rewrite CompOpp_involutive; reflexivity.
Qed.

Lemma ltb_not_leb (x y : float64) :
  F64.ltb y x = true -> F64.leb x y = false.
Proof.
  unfold F64.ltb, F64.leb, SFltb, SFleb.
  rewrite (SFcompare_antisym x y).
  destruct (SFcompare x y) as [[ | | ] | ]; simpl; congruence.
Qed.

Lemma leb_not_ltb (x y : float64) :
  F64.leb x y = true -> F64.ltb y x = false.
Proof.
  unfold F64.ltb, F64.leb, SFltb, SFleb.
  rewrite (SFcompare_antisym x y).
  destruct (SFcompare x y) as [[ | | ] | ]; simpl; congruence.
Qed.

(** Two positive thresholds with one exponent: what is at or under the
    lower one is not above the higher one. *)
Lemma leb_below_ltb_above (p : float64) (lo hi : positive) (e0 : Z) :
  (lo < hi)%positive ->
  SFleb p (S754_finite false lo e0) = true ->
  SFltb (S754_finite false hi e0) p = false.
Proof.
  intros Hlt.
  unfold SFltb, SFleb, SFcompare.
  destruct p as [s | s | | s m e]; try (destruct s); cbv beta iota;
    try (intros; reflexivity); try (intros; discriminate).
  rewrite (Z.compare_antisym e e0).
  destruct (Z.compare_spec e e0) as [He | He | He]; cbv beta iota;
    unfold CompOpp; try (intros; reflexivity); try (intros; discriminate).
  rewrite !Pos.compare_cont_spec. unfold Pos.switch_Eq.
  destruct (Pos.compare_spec m lo) as [H1 | H1 | H1];
    destruct (Pos.compare_spec hi m) as [H2 | H2 | H2];
    try (intros; reflexivity); try (intros; discriminate);
    intros _; exfalso; lia.
Qed.

(** A price at or under the target is not above target + buffer: the
    buffer is positive. *)
Lemma at_target_not_above_reset (p : float64) :
  F64.leb p (F64.of_Z targetGoldPrice22K) = true ->
  F64.gtb p (F64.of_Z (targetGoldPrice22K + resetBuffer)) = false.
Proof.
  rewrite target_value, reset_value.
  apply leb_below_ltb_above. reflexivity.
Qed.

Lemma alert_due_idle (p : float64) :
  alert_due p idle = F64.leb p (F64.of_Z targetGoldPrice22K).
Proof. unfold alert_due. simpl. apply andb_true_r. Qed.

Lemma alert_due_triggered (p : float64) : alert_due p triggered = false.
Proof. unfold alert_due. simpl. apply andb_false_r. Qed.

Lemma reset_due_idle (p : float64) : reset_due p idle = false.
Proof. unfold reset_due. simpl. apply andb_false_r. Qed.

Lemma reset_due_triggered (p : float64) :
  reset_due p triggered
  = F64.gtb p (F64.of_Z (targetGoldPrice22K + resetBuffer)).
Proof. unfold reset_due. simpl. apply andb_true_r. Qed.

Lemma state_cases (s : State) : s = idle \/ s = triggered.
Proof. destruct s as [[ | ]]; [right | left]; reflexivity. Qed.

End Thresholds.

(** ** What a run does, case by case *)

Section Run.

Variable env : Env.
Variable content : option string.

Let s0 : State := state_of_file content.

Lemma load_eq (w : World) :
  loadState w
  = (state_of_file (file w),
     {| file := file w; trace := trace w ++ [ReadFile stateFile] |}).
Proof. reflexivity. Qed.

Lemma save_eq (s : State) (w : World) :
  saveState env s w
  = (tt, {| file := saved env (file w) s; trace := trace w ++ [save s] |}).
Proof.
  unfold saveState, os_WriteFile, bind, ret, emit, saved, save.
  simpl. destruct (disk_ok env); destruct w; reflexivity.
Qed.

Lemma log_eq (l : logline) (w : World) :
  log l w = (tt, {| file := file w; trace := trace w ++ [Logged l] |}).
Proof. reflexivity. Qed.

Lemma sendPushover_eq (message : string) (w : World) :
  sendPushover env message w
  = (error_of_post (pushover env),
     {| file := file w; trace := trace w ++ [post env message] |}).
Proof. reflexivity. Qed.

Lemma reset_logic_fires (p : float64) (s : State) (w : World) :
  reset_due p s = true ->
  reset_logic env p s w
  = (idle, {| file := saved env (file w) idle;
              trace := trace w ++ [Logged ResettingAlertState; save idle] |}).
Proof.
  intros H. unfold reset_logic. rewrite H.
  unfold bind, ret. rewrite log_eq, save_eq. cbn [file trace].
  rewrite <- app_assoc. reflexivity.
Qed.

Lemma reset_logic_skips (p : float64) (s : State) (w : World) :
  reset_due p s = false -> reset_logic env p s w = (s, w).
Proof. intros H. unfold reset_logic. rewrite H. reflexivity. Qed.

Lemma run_fetch_failed (err : error) :
  price_of_response (goldapi env) = inr err ->
  run env (start content)
  = (s0, {| file := content;
            trace := prologue env ++ [Logged (PriceFetchFailed err)] |}).
Proof.
  intros H. unfold run, bind, fetchGoldPricePerGram, ret, emit.
  rewrite load_eq. simpl. rewrite H. reflexivity.
Qed.

(** After a successful fetch the run is at the first [if], with the
    prices logged. *)
Lemma run_fetched (price24K : float64) :
  price_of_response (goldapi env) = inl price24K ->
  run env (start content)
  = (let price22K := convertTo22K price24K in
     let w := {| file := content;
                 trace := prologue env ++ price_lines price24K |} in
     if alert_due price22K s0 then
       (sent <- sendPushover env (alert_message price22K) ;;
        match sent with
        | Some err => log (PushoverError err) ;; ret s0
        | None =>
            log PushoverAlertSent ;;
            saveState env triggered ;;
            reset_logic env price22K triggered
        end) w
     else reset_logic env price22K s0 w).
Proof.
  intros H. subst s0. unfold run, bind at 1 2, fetchGoldPricePerGram.
  rewrite load_eq. unfold bind at 1, emit, ret. cbv beta iota zeta.
  cbn [file trace start app]. rewrite H.
  unfold bind at 1 2, log, emit. cbv beta iota zeta. cbn [file trace app].
  destruct (alert_due (convertTo22K price24K) (state_of_file content));
    reflexivity.
Qed.

(** The four ways a run ends once the price is fetched. *)

Lemma run_post_failed (price24K : float64) (err : error) :
  price_of_response (goldapi env) = inl price24K ->
  alert_due (convertTo22K price24K) s0 = true ->
  error_of_post (pushover env) = Some err ->
  run env (start content)
  = (s0, {| file := content;
            trace := prologue env ++ price_lines price24K
                     ++ [post env (alert_message (convertTo22K price24K));
                         Logged (PushoverError err)] |}).
Proof.
  intros Hp Ha He. rewrite (run_fetched _ Hp). cbv zeta. rewrite Ha.
  unfold bind. rewrite sendPushover_eq, He, log_eq. cbn [file trace].
  rewrite <- !app_assoc. reflexivity.
Qed.

Lemma run_alerted (price24K : float64) :
  price_of_response (goldapi env) = inl price24K ->
  alert_due (convertTo22K price24K) s0 = true ->
  error_of_post (pushover env) = None ->
  run env (start content)
  = (triggered,
     {| file := saved env content triggered;
        trace := prologue env ++ price_lines price24K
                 ++ [post env (alert_message (convertTo22K price24K));
                     Logged PushoverAlertSent; save triggered] |}).
Proof.
  intros Hp Ha He. rewrite (run_fetched _ Hp). cbv zeta. rewrite Ha.
  unfold bind. rewrite sendPushover_eq, He, log_eq, save_eq.
  cbn [file trace]. rewrite reset_logic_skips.
  - rewrite <- !app_assoc. reflexivity.
  - rewrite reset_due_triggered. apply at_target_not_above_reset.
    unfold alert_due in Ha. apply andb_prop in Ha. apply Ha.
Qed.

Lemma run_reset (price24K : float64) :
  price_of_response (goldapi env) = inl price24K ->
  alert_due (convertTo22K price24K) s0 = false ->
  reset_due (convertTo22K price24K) s0 = true ->
  run env (start content)
  = (idle,
     {| file := saved env content idle;
        trace := prologue env ++ price_lines price24K
                 ++ [Logged ResettingAlertState; save idle] |}).
Proof.
  intros Hp Ha Hr. rewrite (run_fetched _ Hp). cbv zeta. rewrite Ha.
  rewrite (reset_logic_fires _ _ _ Hr). cbn [file trace].
  rewrite <- !app_assoc. reflexivity.
Qed.

Lemma run_quiet (price24K : float64) :
  price_of_response (goldapi env) = inl price24K ->
  alert_due (convertTo22K price24K) s0 = false ->
  reset_due (convertTo22K price24K) s0 = false ->
  run env (start content)
  = (s0, {| file := content;
            trace := prologue env ++ price_lines price24K |}).
Proof.
  intros Hp Ha Hr. rewrite (run_fetched _ Hp). cbv zeta. rewrite Ha.
  apply reset_logic_skips, Hr.
Qed.

End Run.

(** ** Reading a trace *)

Lemma notifications_app (a b : list event) :
  notifications (a ++ b) = (notifications a ++ notifications b)%list.
Proof.
  induction a as [ | ev a IH]; [reflexivity | ].
  destruct ev; simpl; try apply IH.
  destruct (find _ form); simpl; rewrite IH; reflexivity.
Qed.

Lemma writes_app (a b : list event) :
  writes (a ++ b) = (writes a ++ writes b)%list.
Proof.
  induction a as [ | ev a IH]; [reflexivity | ].
  destruct ev; simpl; try apply IH. rewrite IH. reflexivity.
Qed.

Lemma notifications_post (env : Env) (message : string) :
  notifications [post env message] = [message].
Proof. reflexivity. Qed.

Ltac read_trace :=
  cbn [fst snd trace file];
  repeat rewrite notifications_app; repeat rewrite writes_app;
  try reflexivity.

Lemma saved_ok (env : Env) (old : option string) (s : State) :
  disk_ok env = true -> saved env old s = Some (marshal_State s).
Proof. intros H. unfold saved. rewrite H. reflexivity. Qed.

(** What is written is what is read back. *)
Lemma state_of_marshal (s : State) :
  state_of_file (Some (marshal_State s)) = s.
Proof. destruct s as [[ | ]]; vm_compute; reflexivity. Qed.


(** ** The transitions of a run *)

(** C1. Price at or under the target, loaded state idle, POST answered
    with 200: one notification is sent, the state in memory becomes
    triggered, and [saveState] writes it once to the state file, which holds
    it (and loads as triggered) when the write succeeds. *)
Theorem alert_sent_once_and_persisted
  (env : Env) (content : option string) (price24K : float64)
  (body : string) :
  price_of_response (goldapi env) = inl price24K ->
  F64.leb (convertTo22K price24K) (F64.of_Z targetGoldPrice22K) = true ->
  state_of_file content = idle ->
  pushover env = Response 200 body ->
  let r := run env (start content) in
  notifications (trace (snd r)) = [alert_message (convertTo22K price24K)]
  /\ fst r = triggered
  /\ writes (trace (snd r)) = [(stateFile, marshal_State triggered)]
  /\ (disk_ok env = true ->
      file (snd r) = Some (marshal_State triggered)
      /\ state_of_file (file (snd r)) = triggered).
Proof.
  intros Hp Hle Hs Hpost r. subst r.
  rewrite (run_alerted env content price24K Hp).
  - read_trace.
    split; [reflexivity | split; [reflexivity | split; [reflexivity | ]]].
    intros Hd. rewrite (saved_ok _ _ _ Hd). split; [reflexivity | ].
    apply state_of_marshal.
  - rewrite Hs, alert_due_idle. exact Hle.
  - rewrite Hpost. reflexivity.
Qed.

Lemma alert_sent_once_and_persisted_witness :
  let env := example_env low_price accepted in
  price_of_response (goldapi env) = inl low_price24K
  /\ F64.leb (convertTo22K low_price24K) (F64.of_Z targetGoldPrice22K) = true
  /\ state_of_file None = idle
  /\ notifications (trace (snd (run env (start None))))
     = [alert_message (convertTo22K low_price24K)]
  /\ fst (run env (start None)) = triggered.
Proof.
  intros env.
  assert (Hp : price_of_response (goldapi env) = inl low_price24K)
    by (vm_compute; reflexivity).
  assert (Hle : F64.leb (convertTo22K low_price24K)
                  (F64.of_Z targetGoldPrice22K) = true)
    by (vm_compute; reflexivity).
  assert (Hs : state_of_file None = idle) by reflexivity.
  assert (Hpost : pushover env = Response 200 "{}") by reflexivity.
  pose proof (alert_sent_once_and_persisted env None low_price24K "{}"
                Hp Hle Hs Hpost) as H.
  cbv zeta in H. destruct H as (Hn & Hf & _).
  repeat split; assumption.
Defined.

(** C2. Price at or under the target, loaded state idle, POST failed (no
    response, or a status other than 200): the state in memory stays idle,
    nothing is written, the state file is as it was, so that the next run
    loads idle again. *)
Theorem failed_post_leaves_state_idle
  (env : Env) (content : option string) (price24K : float64) (err : error) :
  price_of_response (goldapi env) = inl price24K ->
  F64.leb (convertTo22K price24K) (F64.of_Z targetGoldPrice22K) = true ->
  state_of_file content = idle ->
  error_of_post (pushover env) = Some err ->
  let r := run env (start content) in
  fst r = idle
  /\ writes (trace (snd r)) = []
  /\ file (snd r) = content
  /\ state_of_file (file (snd r)) = idle.
Proof.
  intros Hp Hle Hs Hpost r. subst r.
  rewrite (run_post_failed env content price24K err Hp).
  - read_trace.
    split; [exact Hs | split; [reflexivity | split; [reflexivity | ]]].
    exact Hs.
  - rewrite Hs, alert_due_idle. exact Hle.
  - exact Hpost.
Qed.

Lemma failed_post_leaves_state_idle_witness :
  let env := example_env low_price refused in
  price_of_response (goldapi env) = inl low_price24K
  /\ F64.leb (convertTo22K low_price24K) (F64.of_Z targetGoldPrice22K) = true
  /\ state_of_file None = idle
  /\ error_of_post (pushover env) = Some (StatusError "pushover" 500)
  /\ fst (run env (start None)) = idle
  /\ writes (trace (snd (run env (start None)))) = []
  /\ file (snd (run env (start None))) = None.
Proof.
  intros env.
  assert (Hp : price_of_response (goldapi env) = inl low_price24K)
    by (vm_compute; reflexivity).
  assert (Hle : F64.leb (convertTo22K low_price24K)
                  (F64.of_Z targetGoldPrice22K) = true)
    by (vm_compute; reflexivity).
  assert (Hs : state_of_file None = idle) by reflexivity.
  assert (Hpost : error_of_post (pushover env)
                  = Some (StatusError "pushover" 500)) by reflexivity.
  pose proof (failed_post_leaves_state_idle env None low_price24K _
                Hp Hle Hs Hpost) as H.
  cbv zeta in H. destruct H as (Hf & Hw & Hc & _).
  repeat split; assumption.
Defined.

(** C3. A run in which neither transition is due does nothing to the
    state: no notification, no write, the state in memory and the state file
    as they were. That is so in particular for a price above the target and
    not above target + buffer, whatever the loaded state, and for a price at
    or under the target when the loaded state is triggered. *)
Theorem no_transition_no_effect
  (env : Env) (content : option string) (price24K : float64) :
  price_of_response (goldapi env) = inl price24K ->
  let price22K := convertTo22K price24K in
  (alert_due price22K (state_of_file content) = false
   /\ reset_due price22K (state_of_file content) = false)
  \/ (F64.gtb price22K (F64.of_Z targetGoldPrice22K) = true
      /\ F64.leb price22K (F64.of_Z (targetGoldPrice22K + resetBuffer)) = true)
  \/ (F64.leb price22K (F64.of_Z targetGoldPrice22K) = true
      /\ state_of_file content = triggered) ->
  let r := run env (start content) in
  notifications (trace (snd r)) = []
  /\ writes (trace (snd r)) = []
  /\ fst r = state_of_file content
  /\ file (snd r) = content.
Proof.
  intros Hp price22K Hcase r. subst r.
  assert (Hquiet : alert_due price22K (state_of_file content) = false
                   /\ reset_due price22K (state_of_file content) = false).
  { destruct Hcase as [H | [[Hgt Hle] | [Hle Hs]]].
    - exact H.
    - unfold alert_due, reset_due.
      rewrite (ltb_not_leb _ _ Hgt). unfold F64.gtb.
      rewrite (leb_not_ltb _ _ Hle). split; reflexivity.
    - rewrite Hs, alert_due_triggered, reset_due_triggered.
      split; [reflexivity | ]. apply at_target_not_above_reset, Hle. }
  destruct Hquiet as [Ha Hr].
  rewrite (run_quiet env content price24K Hp Ha Hr).
  read_trace. repeat split.
Qed.

Lemma no_transition_no_effect_witness :
  let env := example_env mid_price accepted in
  let content := Some (marshal_State triggered) in
  price_of_response (goldapi env) = inl mid_price24K
  /\ F64.gtb (convertTo22K mid_price24K) (F64.of_Z targetGoldPrice22K) = true
  /\ F64.leb (convertTo22K mid_price24K)
       (F64.of_Z (targetGoldPrice22K + resetBuffer)) = true
  /\ notifications (trace (snd (run env (start content)))) = []
  /\ writes (trace (snd (run env (start content)))) = []
  /\ fst (run env (start content)) = state_of_file content.
Proof.
  intros env content.
  assert (Hp : price_of_response (goldapi env) = inl mid_price24K)
    by (vm_compute; reflexivity).
  assert (Hgt : F64.gtb (convertTo22K mid_price24K)
                  (F64.of_Z targetGoldPrice22K) = true)
    by (vm_compute; reflexivity).
  assert (Hle : F64.leb (convertTo22K mid_price24K)
                  (F64.of_Z (targetGoldPrice22K + resetBuffer)) = true)
    by (vm_compute; reflexivity).
  pose proof (no_transition_no_effect env content mid_price24K Hp
                (or_intror (or_introl (conj Hgt Hle)))) as H.
  cbv zeta in H. destruct H as (Hn & Hw & Hf & _).
  repeat split; assumption.
Defined.

(** C4. Price above target + buffer, loaded state triggered: the state in
    memory becomes idle, [saveState] writes it once to the state file, which
    holds it (and loads as idle) when the write succeeds, and no
    notification is sent. *)
Theorem reset_persisted_without_notification
  (env : Env) (content : option string) (price24K : float64) :
  price_of_response (goldapi env) = inl price24K ->
  F64.gtb (convertTo22K price24K)
    (F64.of_Z (targetGoldPrice22K + resetBuffer)) = true ->
  state_of_file content = triggered ->
  let r := run env (start content) in
  fst r = idle
  /\ writes (trace (snd r)) = [(stateFile, marshal_State idle)]
  /\ notifications (trace (snd r)) = []
  /\ (disk_ok env = true ->
      file (snd r) = Some (marshal_State idle)
      /\ state_of_file (file (snd r)) = idle).
Proof.
  intros Hp Hgt Hs r. subst r.
  rewrite (run_reset env content price24K Hp).
  - read_trace.
    split; [reflexivity | split; [reflexivity | split; [reflexivity | ]]].
    intros Hd. rewrite (saved_ok _ _ _ Hd). split; [reflexivity | ].
    apply state_of_marshal.
  - rewrite Hs. apply alert_due_triggered.
  - rewrite Hs, reset_due_triggered. exact Hgt.
Qed.

Lemma reset_persisted_without_notification_witness :
  let env := example_env high_price accepted in
  let content := Some (marshal_State triggered) in
  price_of_response (goldapi env) = inl high_price24K
  /\ F64.gtb (convertTo22K high_price24K)
       (F64.of_Z (targetGoldPrice22K + resetBuffer)) = true
  /\ state_of_file content = triggered
  /\ fst (run env (start content)) = idle
  /\ writes (trace (snd (run env (start content))))
     = [(stateFile, marshal_State idle)]
  /\ notifications (trace (snd (run env (start content)))) = [].
Proof.
  intros env content.
  assert (Hp : price_of_response (goldapi env) = inl high_price24K)
    by (vm_compute; reflexivity).
  assert (Hgt : F64.gtb (convertTo22K high_price24K)
                  (F64.of_Z (targetGoldPrice22K + resetBuffer)) = true)
    by (vm_compute; reflexivity).
  assert (Hs : state_of_file content = triggered)
    by (vm_compute; reflexivity).
  pose proof (reset_persisted_without_notification env content
                high_price24K Hp Hgt Hs) as H.
  cbv zeta in H. destruct H as (Hf & Hw & Hn & _).
  repeat split; assumption.
Defined.

(** C9. The two transitions exclude each other: no price makes both due in
    one state, and a price that made the alert due does not make the reset
    due in the state the alert leaves. So in every run the flag changes at
    most once: either the state in memory ends as it was loaded, nothing is
    written and the state file is as it was, or the state ends flipped and
    [saveState] has written it, once. *)
Theorem at_most_one_transition_per_run
  (env : Env) (content : option string) :
  (forall (p : float64) (s : State),
      alert_due p s && reset_due p s = false)
  /\ (forall (p : float64),
         alert_due p idle = true -> reset_due p triggered = false)
  /\ let r := run env (start content) in
     (fst r = state_of_file content
      /\ writes (trace (snd r)) = []
      /\ file (snd r) = content)
     \/ (fst r = flip (state_of_file content)
         /\ writes (trace (snd r)) = [(stateFile, marshal_State (fst r))]).
Proof.
  split; [ | split].
  - intros p s. destruct (state_cases s) as [-> | ->].
    + rewrite reset_due_idle. apply andb_false_r.
    + rewrite alert_due_triggered. reflexivity.
  - intros p H. rewrite alert_due_idle in H.
    rewrite reset_due_triggered. apply at_target_not_above_reset, H.
  - intros r. subst r.
    destruct (price_of_response (goldapi env)) as [price24K | err] eqn:Hp.
    + destruct (alert_due (convertTo22K price24K) (state_of_file content))
        eqn:Ha.
      * assert (Hs : state_of_file content = idle).
        { destruct (state_cases (state_of_file content)) as [E | E];
            [exact E | ].
          rewrite E, alert_due_triggered in Ha. discriminate. }
        destruct (error_of_post (pushover env)) as [perr | ] eqn:He.
        -- left. rewrite (run_post_failed env content price24K perr Hp Ha He).
           read_trace. repeat split.
        -- right. rewrite (run_alerted env content price24K Hp Ha He).
           read_trace. rewrite Hs. split; reflexivity.
      * destruct (reset_due (convertTo22K price24K) (state_of_file content))
          eqn:Hr.
        -- assert (Hs : state_of_file content = triggered).
           { destruct (state_cases (state_of_file content)) as [E | E];
               [ | exact E].
             rewrite E, reset_due_idle in Hr. discriminate. }
           right. rewrite (run_reset env content price24K Hp Ha Hr).
           read_trace. rewrite Hs. split; reflexivity.
        -- left. rewrite (run_quiet env content price24K Hp Ha Hr).
           read_trace. repeat split.
    + left. rewrite (run_fetch_failed env content err Hp).
      read_trace. repeat split.
Qed.

(** ** The body of the price API *)

Section PriceBody.

Import Json.

Lemma text_snoc (acc : list ascii) (c : ascii) :
  text (c :: acc) = (text acc ++ String c "")%string.
Proof.
  unfold text. simpl. generalize (rev acc). intros l.
  induction l as [ | a l IH]; simpl; [reflexivity | ].
  rewrite IH. reflexivity.
Qed.

Lemma append_snoc (a b : string) (c : ascii) :
  ((a ++ String c "") ++ b = a ++ String c b)%string.
Proof. induction a as [ | x a IH]; simpl; [ | rewrite IH]; reflexivity. Qed.

Lemma append_empty_r (a : string) : (a ++ "")%string = a.
Proof. induction a as [ | x a IH]; simpl; [ | rewrite IH]; reflexivity. Qed.

(** No state of a number goes on with a closing brace. *)
Lemma num_next_brace (st : numstate) : num_next st "}" = None.
Proof. destruct st; reflexivity. Qed.

(** A number is scanned to its end, and the byte after it is read with
    the number handed to the parser. *)
Lemma scan_number (lit : string) :
  forall (st st' : numstate) (acc : list ascii) (stack : list frame)
         (e : expect) (c : ascii) (rest : string),
    num_run st lit = Some st' ->
    num_final st' = true ->
    num_next st' c = None ->
    scan (InNumber st acc) stack e (lit ++ String c rest)
    = match parse_token stack e (TScalar (Number (text acc ++ lit))) with
      | Continue stack' e' =>
          match feed_between stack' e' c with
          | Go m stack'' e'' => scan m stack'' e'' rest
          | Ended v true => Some (v, rest)
          | Ended v false => Some (v, String c rest)
          | Rejected => None
          end
      | Complete v => Some (v, String c rest)
      | Invalid => None
      end.
Proof.
  induction lit as [ | d lit IH]; intros st st' acc stack e c rest Hrun
    Hfin Hnext.
  - simpl in Hrun. injection Hrun as <-.
    rewrite append_empty_r.
    change ("" ++ String c rest)%string with (String c rest).
    cbn [scan feed]. rewrite Hnext, Hfin.
    destruct (parse_token stack e (TScalar (Number (text acc))));
      reflexivity.
  - simpl in Hrun.
    destruct (num_next st d) as [st1 | ] eqn:Hd; [ | discriminate].
    change (String d lit ++ String c rest)%string
      with (String d (lit ++ String c rest)).
    cbn [scan feed]. rewrite Hd.
    rewrite (IH st1 st' (d :: acc) stack e c rest Hrun Hfin Hnext).
    rewrite text_snoc, append_snoc. reflexivity.
Qed.

(** The scan of [{"price": ] leaves the object open, its key read. *)
Lemma scan_price_key (rest : string) :
  scan_value ("{" ++ quoted "price" ++ ": " ++ rest)
  = scan Between [InObject [] (Some "price")] WantValue rest.
Proof. reflexivity. Qed.

Lemma feed_number_start (stack : list frame) (e : expect) (c : ascii)
  (st : numstate) :
  num_start c = Some st ->
  feed_between stack e c = Go (InNumber st [c]) stack e.
Proof.
  intros H. unfold feed_between.
  destruct c as [[ | ] [ | ] [ | ] [ | ] [ | ] [ | ] [ | ] [ | ]];
    try discriminate H; vm_compute in H; injection H as <-; reflexivity.
Qed.

Lemma scan_price_body (lit : string) :
  number_literal lit = true ->
  scan_value (price_body lit)
  = Some (Object [("price", Number lit)], "").
Proof.
  intros H. unfold price_body. rewrite scan_price_key.
  destruct lit as [ | c lit]; [discriminate | ].
  unfold number_literal in H.
  destruct (num_start c) as [st | ] eqn:Hc; [ | discriminate].
  destruct (num_run st lit) as [st' | ] eqn:Hrun; [ | discriminate].
  change (String c lit ++ "}")%string with (String c (lit ++ "}")).
  cbn [scan feed]. rewrite (feed_number_start _ _ _ _ Hc).
  rewrite (scan_number lit st st' [c] _ _ "}" "" Hrun H
             (num_next_brace st')).
  reflexivity.
Qed.

Lemma decode_price_body (lit : string) (p : float64) :
  number_literal lit = true ->
  ParseFloat lit = Some p ->
  Decode "price" store_float64 (price_body lit) F64.zero = (p, None).
Proof.
  intros Hlit Hp. unfold Decode, read_value.
  rewrite (scan_price_body lit Hlit).
  cbn [store_struct store_members].
  change (key_matches "price" "price") with true.
  cbn [store_float64]. rewrite Hp. reflexivity.
Qed.

End PriceBody.

(** ** Fetching and converting the price *)

(** C5. When the price API answers with status 200 and the body
    [{"price": lit}], [lit] a JSON number that reads as the float64 [p], the
    fetch returns [p / 31.1035] and no error; and the 22K price of a price
    per gram is that price times 0.916, times 1.03, each product rounded to
    float64: [convertTo22K] is a function of the price alone, without an
    error result. *)
Theorem fetch_divides_by_ounce_and_22K_multiplies
  (env : Env) (w : World) (lit : string) (p : float64) :
  goldapi env = Response 200 (price_body lit) ->
  Json.number_literal lit = true ->
  Json.ParseFloat lit = Some p ->
  let price24K := F64.div p (F64.of_decimal false 311035 (-4)) in
  fst (fetchGoldPricePerGram env w) = inl price24K
  /\ convertTo22K price24K
     = F64.mul (F64.mul price24K (F64.of_decimal false 916 (-3)))
         (F64.of_decimal false 103 (-2)).
Proof.
  intros Hapi Hlit Hp price24K. split; [ | reflexivity].
  unfold fetchGoldPricePerGram, bind, ret, emit. cbn [fst].
  rewrite Hapi. unfold price_of_response.
  change (negb (200 =? 200)) with false. cbv iota.
  unfold decode_GoldAPIResponse.
  rewrite (decode_price_body lit p Hlit Hp). reflexivity.
Qed.

Lemma fetch_divides_by_ounce_and_22K_multiplies_witness :
  let env := example_env low_price accepted in
  Json.number_literal "387000.0" = true
  /\ Json.ParseFloat "387000.0"
     = Some (S754_finite false 6648609374208000 (-34))
  /\ fst (fetchGoldPricePerGram env (start None))
     = inl (F64.div (S754_finite false 6648609374208000 (-34))
              (F64.of_decimal false 311035 (-4))).
Proof.
  intros env.
  assert (Hlit : Json.number_literal "387000.0" = true)
    by (vm_compute; reflexivity).
  assert (Hp : Json.ParseFloat "387000.0"
               = Some (S754_finite false 6648609374208000 (-34)))
    by (vm_compute; reflexivity).
  pose proof (fetch_divides_by_ounce_and_22K_multiplies env (start None)
                "387000.0" _ eq_refl Hlit Hp) as H.
  cbv zeta in H. destruct H as [H _].
  repeat split; assumption.
Defined.

(** C6, as the spec states it, fails: at 387000 per ounce the one message
    sent does not hold 11736.50; and when the POST is refused no state is
    written at all. *)
Lemma scenario_387000_refuted :
  (let r := run (example_env low_price accepted) (start None) in
   ~ exists m, notifications (trace (snd r)) = [m]
               /\ contains "11736.50" m = true)
  /\ (let r := run (example_env low_price refused) (start None) in
      writes (trace (snd r)) = [] /\ fst r = idle).
Proof.
  split.
  - intros r [m [Hm Hc]]. subst r. vm_compute in Hm.
    injection Hm as <-. vm_compute in Hc. discriminate.
  - vm_compute. split; reflexivity.
Qed.

(** C6, amended. When the price API answers with status 200 and the body
    [{"price": 387000.0}], the loaded state is idle and the POST is answered
    with 200: the 22K price is at or under the target, one notification is
    sent, its message holds 11739.09, the state in memory becomes triggered
    and [saveState] writes it to the state file. *)
Theorem scenario_387000
  (env : Env) (content : option string) (body : string) :
  goldapi env = Response 200 (price_body "387000.0") ->
  state_of_file content = idle ->
  pushover env = Response 200 body ->
  let r := run env (start content) in
  (exists price24K,
      price_of_response (goldapi env) = inl price24K
      /\ F64.leb (convertTo22K price24K) (F64.of_Z targetGoldPrice22K) = true
      /\ Fmt.fixed 2 (convertTo22K price24K) = "11739.09")
  /\ notifications (trace (snd r)) = [low_price_message]
  /\ contains "11739.09" low_price_message = true
  /\ contains "11736.50" low_price_message = false
  /\ fst r = triggered
  /\ writes (trace (snd r)) = [(stateFile, marshal_State triggered)]
  /\ (disk_ok env = true -> state_of_file (file (snd r)) = triggered).
Proof.
  intros Hapi Hs Hpost r. subst r.
  assert (Hp : price_of_response (goldapi env) = inl low_price24K)
    by (rewrite Hapi; vm_compute; reflexivity).
  assert (Hle : F64.leb (convertTo22K low_price24K)
                  (F64.of_Z targetGoldPrice22K) = true)
    by (vm_compute; reflexivity).
  split.
  { exists low_price24K.
    split; [exact Hp | split; [exact Hle | vm_compute; reflexivity]]. }
  rewrite (run_alerted env content low_price24K Hp).
  - read_trace.
    split; [vm_compute; reflexivity | ].
    split; [vm_compute; reflexivity | ].
    split; [vm_compute; reflexivity | ].
    split; [reflexivity | split; [reflexivity | ]].
    intros Hd. rewrite (saved_ok _ _ _ Hd). apply state_of_marshal.
  - rewrite Hs, alert_due_idle. exact Hle.
  - rewrite Hpost. reflexivity.
Qed.

Lemma scenario_387000_witness :
  let env := example_env low_price accepted in
  let content := Some (marshal_State idle) in
  state_of_file content = idle
  /\ notifications (trace (snd (run env (start content))))
     = [low_price_message]
  /\ fst (run env (start content)) = triggered.
Proof.
  intros env content.
  assert (Hs : state_of_file content = idle) by (vm_compute; reflexivity).
  pose proof (scenario_387000 env content "{}" eq_refl Hs eq_refl) as H.
  cbv zeta in H. destruct H as (_ & Hn & _ & _ & Hf & _).
  repeat split; assumption.
Defined.

(** ** The state file *)

Section StateFile.

Import Json.

(** Members that bring no [true] to the field leave a [false] field
    [false], whatever else they are. *)
Lemma store_members_false (ms : list (string * value)) :
  forall err : option Json.error,
    existsb (fun kv => key_matches "alert_triggered" (fst kv)
                       && is_true (snd kv)) ms = false ->
    fst (store_members "alert_triggered" store_bool ms false err) = false.
Proof.
  induction ms as [ | [k v] ms IH]; intros err H; [reflexivity | ].
  cbn [existsb fst snd] in H. apply orb_false_elim in H.
  destruct H as [Hkv Hms]. cbn [store_members].
  destruct (key_matches "alert_triggered" k); [ | apply IH, Hms].
  destruct v as [ | [ | ] | lit | str | elems | members];
    cbn [store_bool]; try (apply IH, Hms).
  discriminate Hkv.
Qed.

Lemma state_without_true (data : string) (v : value) :
  parse data = Some v ->
  holds_true "alert_triggered" v = false ->
  state_of_file (Some data) = idle.
Proof.
  intros Hparse Hv. unfold state_of_file, Unmarshal. rewrite Hparse.
  unfold idle. f_equal.
  destruct v as [ | b | lit | str | elems | ms]; try reflexivity.
  apply store_members_false, Hv.
Qed.

Lemma no_field_no_true (v : value) :
  has_field "alert_triggered" v = false ->
  holds_true "alert_triggered" v = false.
Proof.
  destruct v as [ | b | lit | str | elems | ms]; try reflexivity.
  cbn [has_field holds_true].
  induction ms as [ | [k x] ms IH]; [reflexivity | ].
  cbn [existsb fst snd]. intros H. apply orb_false_elim in H.
  destruct H as [Hk Hms]. rewrite Hk, (IH Hms). reflexivity.
Qed.

End StateFile.

(** C7, as the spec states it, fails: [Unmarshal] reports an error on a
    state file that gives the key twice, first with [true] and then with a
    number, and [loadState] returns the triggered state, not the default. *)
Lemma decode_error_after_true_refutes_default :
  ~ (forall data : string,
        unmarshal_fails data = true -> state_of_file (Some data) = idle).
Proof.
  intros H. specialize (H twice_keyed_file).
  assert (Hf : unmarshal_fails twice_keyed_file = true)
    by (vm_compute; reflexivity).
  specialize (H Hf). vm_compute in H. discriminate H.
Qed.

(** C7, amended. [loadState] always returns a state, and the state file
    as it was; the state is the default, idle, when the file cannot be
    read, when its content is not one JSON value, and when it is a JSON value
    without a member for [alert_triggered] that is [true] (no object, no
    such member, or a value of another kind). *)
Theorem load_never_fails_and_defaults (w : World) :
  file w = None
  \/ (exists data, file w = Some data /\ Json.parse data = None)
  \/ (exists data v, file w = Some data /\ Json.parse data = Some v
                     /\ holds_true "alert_triggered" v = false) ->
  loadState w
  = (idle, {| file := file w; trace := trace w ++ [ReadFile stateFile] |}).
Proof.
  intros H. rewrite load_eq. f_equal.
  destruct H as [H | [(data & H & Hparse) | (data & v & H & Hparse & Hv)]];
    rewrite H.
  - reflexivity.
  - unfold state_of_file, Json.Unmarshal. rewrite Hparse. reflexivity.
  - apply (state_without_true data v Hparse Hv).
Qed.

Lemma load_never_fails_and_defaults_witness :
  Json.parse truncated_file = None
  /\ loadState (start (Some truncated_file))
     = (idle, {| file := Some truncated_file;
                 trace := [ReadFile stateFile] |}).
Proof.
  assert (Hparse : Json.parse truncated_file = None)
    by (vm_compute; reflexivity).
  split; [exact Hparse | ].
  apply (load_never_fails_and_defaults (start (Some truncated_file))).
  right. left. exists truncated_file. split; [reflexivity | exact Hparse].
Defined.

(** C8. A state saved by [saveState], the write succeeding, is the state
    [loadState] returns next. *)
Theorem save_then_load (env : Env) (s : State) (w : World) :
  disk_ok env = true ->
  fst (loadState (snd (saveState env s w))) = s.
Proof.
  intros Hd. rewrite save_eq, load_eq. cbn [fst snd file].
  rewrite (saved_ok _ _ _ Hd). apply state_of_marshal.
Qed.

Lemma save_then_load_witness :
  let env := example_env low_price accepted in
  disk_ok env = true
  /\ fst (loadState (snd (saveState env triggered (start None)))) = triggered.
Proof.
  intros env. split; [reflexivity | ].
  apply (save_then_load env triggered (start None)). reflexivity.
Defined.

(** C10, as stated, fails: a state file that is valid JSON with no
    member named [alert_triggered], but one named [ALERT_TRIGGERED] with the
    value [true], loads as triggered: the decoder matches keys up to the
    case of letters. *)
Lemma capital_key_refutes_default :
  ~ (forall (data : string) (v : Json.value),
        Json.parse data = Some v ->
        has_key "alert_triggered" v = false ->
        state_of_file (Some data) = idle).
Proof.
  intros H.
  specialize (H capital_keyed_file
                (Json.Object [("ALERT_TRIGGERED", Json.Bool true)])).
  assert (Hparse : Json.parse capital_keyed_file
                   = Some (Json.Object [("ALERT_TRIGGERED", Json.Bool true)]))
    by (vm_compute; reflexivity).
  specialize (H Hparse eq_refl). vm_compute in H. discriminate H.
Qed.

(** C10, amended. A state file that is valid JSON without a member whose
    key is [alert_triggered] up to the case of ASCII letters (the object
    [{}] for one) loads as the default state. *)
Theorem valid_json_without_field_defaults (data : string) (v : Json.value) :
  Json.parse data = Some v ->
  has_field "alert_triggered" v = false ->
  state_of_file (Some data) = idle.
Proof.
  intros Hparse Hv.
  apply (state_without_true data v Hparse), no_field_no_true, Hv.
Qed.

Lemma valid_json_without_field_defaults_witness :
  Json.parse "{}" = Some (Json.Object [])
  /\ has_field "alert_triggered" (Json.Object []) = false
  /\ state_of_file (Some "{}") = idle.
Proof.
  assert (Hparse : Json.parse "{}" = Some (Json.Object []))
    by (vm_compute; reflexivity).
  split; [exact Hparse | split; [reflexivity | ]].
  apply (valid_json_without_field_defaults "{}" (Json.Object []) Hparse).
  reflexivity.
Defined.


(** * Further properties of the job *)

(** ** Every run ends in one of five ways *)

Lemma run_cases (env : Env) (content : option string) :
  (exists err,
      price_of_response (goldapi env) = inr err
      /\ run env (start content)
         = (state_of_file content,
            {| file := content;
               trace := prologue env ++ [Logged (PriceFetchFailed err)] |}))
  \/ (exists price24K,
         price_of_response (goldapi env) = inl price24K
         /\ ((exists err,
                 alert_due (convertTo22K price24K) (state_of_file content)
                 = true
                 /\ error_of_post (pushover env) = Some err
                 /\ run env (start content)
                    = (state_of_file content,
                       {| file := content;
                          trace :=
                            prologue env ++ price_lines price24K
                            ++ [post env
                                  (alert_message (convertTo22K price24K));
                                Logged (PushoverError err)] |}))
             \/ (alert_due (convertTo22K price24K) (state_of_file content)
                 = true
                 /\ error_of_post (pushover env) = None
                 /\ run env (start content)
                    = (triggered,
                       {| file := saved env content triggered;
                          trace :=
                            prologue env ++ price_lines price24K
                            ++ [post env
                                  (alert_message (convertTo22K price24K));
                                Logged PushoverAlertSent; save triggered] |}))
             \/ (alert_due (convertTo22K price24K) (state_of_file content)
                 = false
                 /\ reset_due (convertTo22K price24K) (state_of_file content)
                    = true
                 /\ run env (start content)
                    = (idle,
                       {| file := saved env content idle;
                          trace :=
                            prologue env ++ price_lines price24K
                            ++ [Logged ResettingAlertState; save idle] |}))
             \/ (alert_due (convertTo22K price24K) (state_of_file content)
                 = false
                 /\ reset_due (convertTo22K price24K) (state_of_file content)
                    = false
                 /\ run env (start content)
                    = (state_of_file content,
                       {| file := content;
                          trace := prologue env ++ price_lines price24K |})))).
Proof.
  destruct (price_of_response (goldapi env)) as [price24K | err] eqn:Hp.
  - right. exists price24K. split; [reflexivity | ].
    destruct (alert_due (convertTo22K price24K) (state_of_file content))
      eqn:Ha.
    + destruct (error_of_post (pushover env)) as [err | ] eqn:He.
      * left. exists err. repeat split.
        apply (run_post_failed env content price24K err Hp Ha He).
      * right. left. repeat split.
        apply (run_alerted env content price24K Hp Ha He).
    + destruct (reset_due (convertTo22K price24K) (state_of_file content))
        eqn:Hr.
      * right. right. left. repeat split.
        apply (run_reset env content price24K Hp Ha Hr).
      * right. right. right. repeat split.
        apply (run_quiet env content price24K Hp Ha Hr).
  - left. exists err. split; [reflexivity | ].
    apply (run_fetch_failed env content err Hp).
Qed.

Lemma alert_due_inv (p : float64) (s : State) :
  alert_due p s = true ->
  s = idle /\ F64.leb p (F64.of_Z targetGoldPrice22K) = true.
Proof.
  intros H. destruct (state_cases s) as [-> | ->].
  - rewrite alert_due_idle in H. split; [reflexivity | exact H].
  - rewrite alert_due_triggered in H. discriminate H.
Qed.

Lemma reset_due_inv (p : float64) (s : State) :
  reset_due p s = true ->
  s = triggered
  /\ F64.gtb p (F64.of_Z (targetGoldPrice22K + resetBuffer)) = true.
Proof.
  intros H. destruct (state_cases s) as [-> | ->].
  - rewrite reset_due_idle in H. discriminate H.
  - rewrite reset_due_triggered in H. split; [reflexivity | exact H].
Qed.

Lemma error_of_post_none (r : response) :
  error_of_post r = None -> exists body, r = Response 200 body.
Proof.
  destruct r as [ | code body]; [discriminate | ].
  unfold error_of_post. destruct (Z.eqb_spec code 200) as [-> | Hne];
    simpl; [ | discriminate].
  intros _. exists body. reflexivity.
Qed.

(** ** What a run does not do *)

(** X1. When the price cannot be fetched (no response, a status other than
    200, a body that does not decode), the run stops there: nothing is
    posted, nothing is written, the state in memory and the state file are
    as loaded, and the last thing done is the log of the error. *)
Theorem fetch_failure_stops_the_run
  (env : Env) (content : option string) (err : error) :
  price_of_response (goldapi env) = inr err ->
  let r := run env (start content) in
  notifications (trace (snd r)) = []
  /\ writes (trace (snd r)) = []
  /\ fst r = state_of_file content
  /\ file (snd r) = content
  /\ last (trace (snd r)) (ReadFile stateFile)
     = Logged (PriceFetchFailed err).
Proof.
  intros Hp r. subst r. rewrite (run_fetch_failed env content err Hp).
  read_trace. repeat split.
Qed.

Lemma fetch_failure_stops_the_run_witness :
  let env := example_env (Response 503 "") accepted in
  let content := Some (marshal_State triggered) in
  price_of_response (goldapi env) = inr (StatusError "goldapi" 503)
  /\ notifications (trace (snd (run env (start content)))) = []
  /\ writes (trace (snd (run env (start content)))) = []
  /\ fst (run env (start content)) = state_of_file content.
Proof.
  intros env content.
  assert (Hp : price_of_response (goldapi env)
               = inr (StatusError "goldapi" 503)) by reflexivity.
  pose proof (fetch_failure_stops_the_run env content _ Hp) as H.
  cbv zeta in H. destruct H as (Hn & Hw & Hf & _).
  repeat split; assumption.
Defined.

(** X2. A run posts at most one notification, and posts one only when the
    price was fetched, the loaded state is idle and the 22K price is at or
    under the target; the message is then the alert for that price. *)
Theorem notification_only_when_alert_due
  (env : Env) (content : option string) :
  notifications (trace (snd (run env (start content)))) <> [] ->
  exists price24K,
    price_of_response (goldapi env) = inl price24K
    /\ state_of_file content = idle
    /\ F64.leb (convertTo22K price24K) (F64.of_Z targetGoldPrice22K) = true
    /\ notifications (trace (snd (run env (start content))))
       = [alert_message (convertTo22K price24K)].
Proof.
  intros Hn.
  destruct (run_cases env content)
    as [(err & Hp & Hrun)
       | (price24K & Hp & [(err & Ha & He & Hrun)
                          | [(Ha & He & Hrun)
                            | [(Ha & Hr & Hrun) | (Ha & Hr & Hrun)]]])];
    rewrite Hrun in Hn |- *; revert Hn; read_trace; intros Hn;
    try (exfalso; apply Hn; reflexivity);
    exists price24K; destruct (alert_due_inv _ _ Ha) as [Hs Hle];
    repeat split; assumption.
Qed.

Lemma notification_only_when_alert_due_witness :
  let env := example_env low_price refused in
  notifications (trace (snd (run env (start None)))) <> []
  /\ exists price24K,
      price_of_response (goldapi env) = inl price24K
      /\ F64.leb (convertTo22K price24K) (F64.of_Z targetGoldPrice22K)
         = true.
Proof.
  intros env.
  assert (Hn : notifications (trace (snd (run env (start None)))) <> [])
    by (vm_compute; discriminate).
  split; [exact Hn | ].
  destruct (notification_only_when_alert_due env None Hn)
    as (price24K & Hp & _ & Hle & _).
  exists price24K. split; assumption.
Defined.

(** X3. The state goes from idle to triggered only in a run whose POST was
    answered with status 200, after that one notification: any other answer
    of Pushover, 2xx statuses included, leaves the state idle. *)
Theorem triggered_only_after_status_200
  (env : Env) (content : option string) :
  state_of_file content = idle ->
  fst (run env (start content)) = triggered ->
  (exists body, pushover env = Response 200 body)
  /\ List.length (notifications (trace (snd (run env (start content)))))
     = 1%nat
  /\ writes (trace (snd (run env (start content))))
     = [(stateFile, marshal_State triggered)].
Proof.
  intros Hs Hf.
  destruct (run_cases env content)
    as [(err & Hp & Hrun)
       | (price24K & Hp & [(err & Ha & He & Hrun)
                          | [(Ha & He & Hrun)
                            | [(Ha & Hr & Hrun) | (Ha & Hr & Hrun)]]])];
    rewrite Hrun in Hf |- *; cbn [fst] in Hf;
    try (rewrite Hs in Hf; discriminate Hf);
    try discriminate Hf.
  read_trace. split; [apply error_of_post_none, He | ].
  split; reflexivity.
Qed.

Lemma triggered_only_after_status_200_witness :
  let env := example_env low_price accepted in
  state_of_file None = idle
  /\ fst (run env (start None)) = triggered
  /\ exists body, pushover env = Response 200 body.
Proof.
  intros env.
  assert (Hs : state_of_file None = idle) by reflexivity.
  assert (Hf : fst (run env (start None)) = triggered)
    by (vm_compute; reflexivity).
  split; [exact Hs | split; [exact Hf | ]].
  apply (triggered_only_after_status_200 env None Hs Hf).
Defined.

(** X4. When the writes succeed, memory and disk agree at the end of
    every run: the state file loads as the state the run ended with. *)
Theorem state_file_agrees_with_memory
  (env : Env) (content : option string) :
  disk_ok env = true ->
  state_of_file (file (snd (run env (start content))))
  = fst (run env (start content)).
Proof.
  intros Hd.
  destruct (run_cases env content)
    as [(err & Hp & Hrun)
       | (price24K & Hp & [(err & Ha & He & Hrun)
                          | [(Ha & He & Hrun)
                            | [(Ha & Hr & Hrun) | (Ha & Hr & Hrun)]]])];
    rewrite Hrun; cbn [fst snd file]; try reflexivity;
    rewrite (saved_ok _ _ _ Hd); apply state_of_marshal.
Qed.

Lemma state_file_agrees_with_memory_witness :
  let env := example_env high_price accepted in
  let content := Some (marshal_State triggered) in
  disk_ok env = true
  /\ state_of_file (file (snd (run env (start content))))
     = fst (run env (start content)).
Proof.
  intros env content. split; [reflexivity | ].
  apply (state_file_agrees_with_memory env content). reflexivity.
Defined.

(** ** Runs one after the other *)

Section Sequences.

(** From a triggered state, a run whose price does not call for a reset is
    silent and leaves the state file as it was. *)
Lemma triggered_run_silent (env : Env) (content : option string) :
  state_of_file content = triggered ->
  no_reset_price env = true ->
  silent (run env (start content))
  /\ fst (run env (start content)) = triggered
  /\ file (snd (run env (start content))) = content.
Proof.
  intros Hs Hno. unfold no_reset_price, above_reset in Hno. unfold silent.
  destruct (price_of_response (goldapi env)) as [price24K | err] eqn:Hp.
  - apply negb_true_iff in Hno.
    rewrite (run_quiet env content price24K Hp).
    + read_trace. repeat split. exact Hs.
    + rewrite Hs. apply alert_due_triggered.
    + rewrite Hs, reset_due_triggered. exact Hno.
  - rewrite (run_fetch_failed env content err Hp).
    read_trace. repeat split. exact Hs.
Qed.

Lemma triggered_runs_silent (envs : list Env) :
  forall content : option string,
    state_of_file content = triggered ->
    forallb no_reset_price envs = true ->
    Forall silent (runs envs content).
Proof.
  induction envs as [ | env envs IH]; intros content Hs Hall;
    [constructor | ].
  cbn [forallb] in Hall. apply andb_prop in Hall. destruct Hall as [H1 H2].
  destruct (triggered_run_silent env content Hs H1) as (Hq & Hf & Hc).
  cbn [runs]. constructor; [exact Hq | ].
  rewrite Hc. apply IH; assumption.
Qed.

End Sequences.

(** X5. Debounce: after a run that sent the alert and saved the state,
    the runs that follow send nothing and write nothing, however many they
    are and whatever the answers of Pushover, as long as no price is above
    target + buffer (a failed fetch counts as no price). *)
Theorem no_second_alert_before_reset
  (env : Env) (envs : list Env) (content : option string)
  (price24K : float64) (body : string) :
  price_of_response (goldapi env) = inl price24K ->
  F64.leb (convertTo22K price24K) (F64.of_Z targetGoldPrice22K) = true ->
  state_of_file content = idle ->
  pushover env = Response 200 body ->
  disk_ok env = true ->
  forallb no_reset_price envs = true ->
  exists first rest,
    runs (env :: envs) content = first :: rest
    /\ notifications (trace (snd first))
       = [alert_message (convertTo22K price24K)]
    /\ Forall silent rest.
Proof.
  intros Hp Hle Hs Hpost Hd Hall.
  exists (run env (start content)),
         (runs envs (file (snd (run env (start content))))).
  split; [reflexivity | ].
  assert (Ha : alert_due (convertTo22K price24K) (state_of_file content)
               = true) by (rewrite Hs, alert_due_idle; exact Hle).
  assert (He : error_of_post (pushover env) = None)
    by (rewrite Hpost; reflexivity).
  rewrite (run_alerted env content price24K Hp Ha He).
  read_trace. split; [reflexivity | ].
  apply triggered_runs_silent; [ | exact Hall].
  rewrite (saved_ok _ _ _ Hd). apply state_of_marshal.
Qed.

Lemma no_second_alert_before_reset_witness :
  let env := example_env low_price accepted in
  let envs := [example_env low_price accepted;
               example_env mid_price accepted;
               example_env NoResponse accepted;
               example_env low_price refused] in
  forallb no_reset_price envs = true
  /\ exists first rest,
      runs (env :: envs) None = first :: rest
      /\ notifications (trace (snd first))
         = [alert_message (convertTo22K low_price24K)]
      /\ Forall silent rest.
Proof.
  intros env envs.
  assert (Hall : forallb no_reset_price envs = true)
    by (vm_compute; reflexivity).
  split; [exact Hall | ].
  apply (no_second_alert_before_reset env envs None low_price24K "{}").
  - vm_compute; reflexivity.
  - vm_compute; reflexivity.
  - reflexivity.
  - reflexivity.
  - reflexivity.
  - exact Hall.
Defined.

(** X6. Re-arming: a reset run that saved the idle state is followed, at
    the next price at or under the target, by a run that sends the alert
    again. *)
Theorem alert_again_after_reset
  (env1 env2 : Env) (content : option string)
  (high low : float64) (body : string) :
  state_of_file content = triggered ->
  price_of_response (goldapi env1) = inl high ->
  F64.gtb (convertTo22K high)
    (F64.of_Z (targetGoldPrice22K + resetBuffer)) = true ->
  disk_ok env1 = true ->
  price_of_response (goldapi env2) = inl low ->
  F64.leb (convertTo22K low) (F64.of_Z targetGoldPrice22K) = true ->
  pushover env2 = Response 200 body ->
  exists r1 r2,
    runs [env1; env2] content = [r1; r2]
    /\ notifications (trace (snd r1)) = []
    /\ fst r1 = idle
    /\ notifications (trace (snd r2)) = [alert_message (convertTo22K low)]
    /\ fst r2 = triggered.
Proof.
  intros Hs Hp1 Hgt Hd Hp2 Hle Hpost.
  exists (run env1 (start content)),
         (run env2 (start (file (snd (run env1 (start content)))))).
  split; [reflexivity | ].
  assert (Ha1 : alert_due (convertTo22K high) (state_of_file content)
                = false) by (rewrite Hs; apply alert_due_triggered).
  assert (Hr1 : reset_due (convertTo22K high) (state_of_file content)
                = true) by (rewrite Hs, reset_due_triggered; exact Hgt).
  rewrite (run_reset env1 content high Hp1 Ha1 Hr1).
  cbn [fst snd file trace]. rewrite (saved_ok _ _ _ Hd).
  assert (Ha2 : alert_due (convertTo22K low)
                  (state_of_file (Some (marshal_State idle))) = true)
    by (rewrite state_of_marshal, alert_due_idle; exact Hle).
  assert (He : error_of_post (pushover env2) = None)
    by (rewrite Hpost; reflexivity).
  rewrite (run_alerted env2 _ low Hp2 Ha2 He).
  read_trace. repeat split.
Qed.

Lemma alert_again_after_reset_witness :
  let env1 := example_env high_price accepted in
  let env2 := example_env low_price accepted in
  let content := Some (marshal_State triggered) in
  state_of_file content = triggered
  /\ exists r1 r2,
      runs [env1; env2] content = [r1; r2]
      /\ notifications (trace (snd r1)) = []
      /\ fst r1 = idle
      /\ notifications (trace (snd r2))
         = [alert_message (convertTo22K low_price24K)]
      /\ fst r2 = triggered.
Proof.
  intros env1 env2 content.
  assert (Hs : state_of_file content = triggered)
    by (vm_compute; reflexivity).
  split; [exact Hs | ].
  apply (alert_again_after_reset env1 env2 content high_price24K
           low_price24K "{}" Hs).
  - vm_compute; reflexivity.
  - vm_compute; reflexivity.
  - reflexivity.
  - vm_compute; reflexivity.
  - vm_compute; reflexivity.
  - reflexivity.
Defined.

(** X7. Retry: a run whose POST failed is followed, at the next price at or
    under the target, by a run that posts the alert again, and a POST
    answered with 200 then sets the state. *)
Theorem alert_retried_after_failed_post
  (env1 env2 : Env) (content : option string)
  (p1 p2 : float64) (err : error) (body : string) :
  state_of_file content = idle ->
  price_of_response (goldapi env1) = inl p1 ->
  F64.leb (convertTo22K p1) (F64.of_Z targetGoldPrice22K) = true ->
  error_of_post (pushover env1) = Some err ->
  price_of_response (goldapi env2) = inl p2 ->
  F64.leb (convertTo22K p2) (F64.of_Z targetGoldPrice22K) = true ->
  pushover env2 = Response 200 body ->
  exists r1 r2,
    runs [env1; env2] content = [r1; r2]
    /\ notifications (trace (snd r1)) = [alert_message (convertTo22K p1)]
    /\ fst r1 = idle
    /\ writes (trace (snd r1)) = []
    /\ notifications (trace (snd r2)) = [alert_message (convertTo22K p2)]
    /\ fst r2 = triggered.
Proof.
  intros Hs Hp1 Hle1 He1 Hp2 Hle2 Hpost.
  exists (run env1 (start content)),
         (run env2 (start (file (snd (run env1 (start content)))))).
  split; [reflexivity | ].
  assert (Ha1 : alert_due (convertTo22K p1) (state_of_file content) = true)
    by (rewrite Hs, alert_due_idle; exact Hle1).
  rewrite (run_post_failed env1 content p1 err Hp1 Ha1 He1).
  cbn [fst snd file trace].
  assert (Ha2 : alert_due (convertTo22K p2) (state_of_file content) = true)
    by (rewrite Hs, alert_due_idle; exact Hle2).
  assert (He2 : error_of_post (pushover env2) = None)
    by (rewrite Hpost; reflexivity).
  rewrite (run_alerted env2 content p2 Hp2 Ha2 He2).
  read_trace. repeat split. exact Hs.
Qed.

Lemma alert_retried_after_failed_post_witness :
  let env1 := example_env low_price NoResponse in
  let env2 := example_env low_price accepted in
  state_of_file None = idle
  /\ error_of_post (pushover env1) = Some TransportError
  /\ exists r1 r2,
      runs [env1; env2] None = [r1; r2]
      /\ notifications (trace (snd r1))
         = [alert_message (convertTo22K low_price24K)]
      /\ fst r1 = idle
      /\ writes (trace (snd r1)) = []
      /\ notifications (trace (snd r2))
         = [alert_message (convertTo22K low_price24K)]
      /\ fst r2 = triggered.
Proof.
  intros env1 env2.
  split; [reflexivity | split; [reflexivity | ]].
  apply (alert_retried_after_failed_post env1 env2 None low_price24K
           low_price24K TransportError "{}").
  - reflexivity.
  - vm_compute; reflexivity.
  - vm_compute; reflexivity.
  - reflexivity.
  - vm_compute; reflexivity.
  - vm_compute; reflexivity.
  - reflexivity.
Defined.

(** ** The price is never NaN *)

Section NotNaN.

Variables prec emax : Z.

Lemma iter_pos_keeps {A : Type} (P : A -> Prop) (f : A -> A) :
  (forall x, P x -> P (f x)) ->
  forall (n : positive) (x : A), P x -> P (iter_pos f n x).
Proof.
  intros Hf. induction n as [n IH | n IH | ]; intros x Hx; simpl.
  - apply IH, IH, Hf, Hx.
  - apply IH, IH, Hx.
  - apply Hf, Hx.
Qed.

Lemma shr_1_nonneg (mrs : shr_record) :
  0 <= shr_m mrs -> 0 <= shr_m (shr_1 mrs).
Proof.
  destruct mrs as [m r s]. simpl.
  destruct m as [ | [p | p | ] | [p | p | ]]; simpl; lia.
Qed.

Lemma shr_nonneg (mrs : shr_record) (e n : Z) :
  0 <= shr_m mrs -> 0 <= shr_m (fst (shr mrs e n)).
Proof.
  intros H. unfold shr. destruct n as [ | p | p]; simpl; try exact H.
  apply (iter_pos_keeps (fun x => 0 <= shr_m x)); [ | exact H].
  apply shr_1_nonneg.
Qed.

Lemma shr_fexp_nonneg (m e : Z) (l : location) :
  0 <= m -> 0 <= shr_m (fst (shr_fexp prec emax m e l)).
Proof.
  intros H. unfold shr_fexp. apply shr_nonneg.
  destruct l as [ | [ | | ]]; exact H.
Qed.

Lemma round_nearest_even_nonneg (m : Z) (l : location) :
  0 <= m -> 0 <= round_nearest_even m l.
Proof.
  intros H. unfold round_nearest_even.
  destruct l as [ | [ | | ]]; try destruct (Z.even m); lia.
Qed.

(** Rounding a mantissa that is not negative gives a zero, a finite number
    or an infinity. *)
Lemma binary_round_aux_not_nan (sx : bool) (mx ex : Z) (lx : location) :
  0 <= mx -> is_nan (binary_round_aux prec emax sx mx ex lx) = false.
Proof.
  intros H. unfold binary_round_aux.
  pose proof (shr_fexp_nonneg mx ex lx H) as H1.
  destruct (shr_fexp prec emax mx ex lx) as [mrs' e']. cbn [fst] in H1.
  pose proof (shr_fexp_nonneg
                (round_nearest_even (shr_m mrs') (loc_of_shr_record mrs'))
                e' loc_Exact
                (round_nearest_even_nonneg _ _ H1)) as H2.
  destruct (shr_fexp prec emax _ e' loc_Exact) as [mrs'' e''].
  cbn [fst] in H2.
  destruct (shr_m mrs'') as [ | m | m]; [reflexivity | | lia].
  destruct (e'' <=? emax - prec); reflexivity.
Qed.

Lemma SFmul_finite_not_nan (x : float64) (s : bool) (m : positive) (e : Z) :
  is_nan x = false ->
  is_nan (SFmul prec emax x (S754_finite s m e)) = false.
Proof.
  intros Hx. destruct x as [sx | sx | | sx mx ex]; try discriminate Hx;
    cbn [SFmul]; try reflexivity.
  apply binary_round_aux_not_nan. lia.
Qed.

Lemma SFdiv_finite_not_nan (x : float64) (s : bool) (m : positive) (e : Z) :
  is_nan x = false ->
  is_nan (SFdiv prec emax x (S754_finite s m e)) = false.
Proof.
  intros Hx. destruct x as [sx | sx | | sx mx ex]; try discriminate Hx;
    cbn [SFdiv]; try reflexivity.
  unfold SFdiv_core_binary.
  set (m' := match _ with Z0 => _ | Zpos _ => _ | Zneg _ => _ end).
  assert (Hm' : 0 <= m').
  { subst m'.
    destruct (ex - e - _) as [ | p | p]; try lia.
    apply Z.shiftl_nonneg. lia. }
  pose proof (Z_div_mod m' (Zpos m) eq_refl) as Hdiv.
  destruct (Z.div_eucl m' (Zpos m)) as [q r].
  apply binary_round_aux_not_nan. nia.
Qed.

End NotNaN.

Section Bands.

Lemma SFcompare_total (x y : float64) :
  is_nan x = false -> is_nan y = false -> SFcompare x y <> None.
Proof.
  intros Hx Hy.
  destruct x as [sx | sx | | sx mx ex]; try discriminate Hx;
    destruct y as [sy | sy | | sy my ey]; try discriminate Hy;
    cbn [SFcompare]; discriminate.
Qed.

(** Of two numbers neither of which is NaN, the first is at or under the
    second or above it. *)
Lemma leb_or_gtb (x y : float64) :
  is_nan x = false -> is_nan y = false ->
  F64.leb x y = true \/ F64.gtb x y = true.
Proof.
  intros Hx Hy. pose proof (SFcompare_total x y Hx Hy) as Ht.
  unfold F64.gtb, F64.ltb, F64.leb, SFltb, SFleb.
  rewrite (SFcompare_antisym x y).
  destruct (SFcompare x y) as [[ | | ] | ]; simpl;
    [left | left | right | contradiction]; reflexivity.
Qed.

Lemma target_not_nan : is_nan (F64.of_Z targetGoldPrice22K) = false.
Proof. rewrite target_value. reflexivity. Qed.

Lemma reset_not_nan :
  is_nan (F64.of_Z (targetGoldPrice22K + resetBuffer)) = false.
Proof. rewrite reset_value. reflexivity. Qed.

Lemma bands_of_number (p : float64) :
  is_nan p = false ->
  (at_or_under_target p = true /\ in_dead_zone p = false
   /\ above_reset p = false)
  \/ (at_or_under_target p = false /\ in_dead_zone p = true
      /\ above_reset p = false)
  \/ (at_or_under_target p = false /\ in_dead_zone p = false
      /\ above_reset p = true).
Proof.
  intros Hp. unfold at_or_under_target, in_dead_zone, above_reset.
  destruct (leb_or_gtb p _ Hp target_not_nan) as [Hle | Hgt].
  - left. rewrite Hle, (leb_not_ltb _ _ Hle : F64.gtb p _ = false),
      (at_target_not_above_reset p Hle).
    repeat split.
  - rewrite Hgt, (ltb_not_leb _ _ Hgt).
    destruct (leb_or_gtb p _ Hp reset_not_nan) as [Hle' | Hgt'].
    + right. left.
      rewrite Hle', (leb_not_ltb _ _ Hle' : F64.gtb p _ = false).
      repeat split.
    + right. right. rewrite Hgt', (ltb_not_leb _ _ Hgt'). repeat split.
Qed.

End Bands.

Section FetchedPrice.

Import Json.

Lemma ParseFloat_finite (lit : string) (x : float64) :
  ParseFloat lit = Some x -> F64.is_finite x = true.
Proof.
  unfold ParseFloat.
  destruct (read_sign lit) as [neg s1].
  destruct (read_digits 0 0 s1) as [[int_part n0] s2].
  assert (Hif : forall y : float64,
             (if F64.is_finite y then Some y else None) = Some x ->
             F64.is_finite x = true).
  { intros y. destruct (F64.is_finite y) eqn:Hfin; [ | discriminate].
    intros H. injection H as <-. exact Hfin. }
  destruct s2 as [ | c rest]; [apply Hif | ].
  destruct (c =? ".")%char; [ | apply Hif].
  destruct (read_digits int_part 0 rest) as [[mant nfrac] s3]. apply Hif.
Qed.

Lemma finite_not_nan (x : float64) :
  F64.is_finite x = true -> is_nan x = false.
Proof. destruct x; try discriminate; reflexivity. Qed.

Lemma store_float64_not_nan (v : value) (x x' : float64) :
  is_nan x = false -> store_float64 v x = Some x' -> is_nan x' = false.
Proof.
  intros Hx. destruct v as [ | b | lit | str | elems | ms];
    cbn [store_float64]; try discriminate.
  - intros H. injection H as <-. exact Hx.
  - intros H. apply finite_not_nan, (ParseFloat_finite lit), H.
Qed.

Lemma store_members_not_nan (ms : list (string * value)) :
  forall (x : float64) (err : option Json.error),
    is_nan x = false ->
    is_nan (fst (store_members "price" store_float64 ms x err)) = false.
Proof.
  induction ms as [ | [k v] ms IH]; intros x err Hx; [exact Hx | ].
  cbn [store_members].
  destruct (key_matches "price" k); [ | apply IH, Hx].
  destruct (store_float64 v x) as [x' | ] eqn:Hv.
  - apply IH, (store_float64_not_nan v x x' Hx Hv).
  - apply IH, Hx.
Qed.

Lemma decoded_price_not_nan (body : string) :
  is_nan (PricePerOunce (fst (decode_GoldAPIResponse body))) = false.
Proof.
  unfold decode_GoldAPIResponse, Decode.
  destruct (read_value body) as [v | ]; [ | reflexivity].
  destruct v as [ | b | lit | str | elems | ms]; try reflexivity.
  cbn [store_struct].
  pose proof (store_members_not_nan ms F64.zero None eq_refl) as H.
  destruct (store_members "price" store_float64 ms F64.zero None)
    as [price err].
  exact H.
Qed.

Lemma ounceToGram_value :
  ounceToGram = S754_finite false 8754856938119889 (-48).
Proof. reflexivity. Qed.

Lemma purityFactor_value :
  purityFactor = S754_finite false 8250594517342749 (-53).
Proof. reflexivity. Qed.

Lemma gstFactor_value :
  gstFactor = S754_finite false 4638707616191611 (-52).
Proof. reflexivity. Qed.

Lemma convertTo22K_not_nan (price24K : float64) :
  is_nan price24K = false -> is_nan (convertTo22K price24K) = false.
Proof.
  intros H. unfold convertTo22K, F64.mul.
  rewrite purityFactor_value, gstFactor_value.
  apply SFmul_finite_not_nan, SFmul_finite_not_nan, H.
Qed.

Lemma fetched_price_inv (r : response) (price24K : float64) :
  price_of_response r = inl price24K ->
  (exists body, r = Response 200 body) /\ is_nan price24K = false.
Proof.
  destruct r as [ | code body]; [discriminate | ].
  unfold price_of_response.
  destruct (Z.eqb_spec code 200) as [-> | Hne]; simpl; [ | discriminate].
  pose proof (decoded_price_not_nan body) as Hn.
  destruct (decode_GoldAPIResponse body) as [data [e | ]];
    [discriminate | ].
  intros H. injection H as <-. cbn [fst] in Hn.
  split; [exists body; reflexivity | ].
  unfold F64.div. rewrite ounceToGram_value.
  apply SFdiv_finite_not_nan, Hn.
Qed.

End FetchedPrice.

(** X8. A price is returned by the fetch only for a response with status
    200, and neither it nor the 22K price made of it is ever NaN: the 22K
    price lies in exactly one of the three bands of [run], at or under the
    target, above it up to target + buffer, or above target + buffer. *)
Theorem fetched_price_in_one_band (r : response) (price24K : float64) :
  price_of_response r = inl price24K ->
  (exists body, r = Response 200 body)
  /\ is_nan price24K = false
  /\ is_nan (convertTo22K price24K) = false
  /\ ((at_or_under_target (convertTo22K price24K) = true
       /\ in_dead_zone (convertTo22K price24K) = false
       /\ above_reset (convertTo22K price24K) = false)
      \/ (at_or_under_target (convertTo22K price24K) = false
          /\ in_dead_zone (convertTo22K price24K) = true
          /\ above_reset (convertTo22K price24K) = false)
      \/ (at_or_under_target (convertTo22K price24K) = false
          /\ in_dead_zone (convertTo22K price24K) = false
          /\ above_reset (convertTo22K price24K) = true)).
Proof.
  intros H. destruct (fetched_price_inv r price24K H) as [Hr Hn].
  split; [exact Hr | split; [exact Hn | ]].
  pose proof (convertTo22K_not_nan price24K Hn) as Hn'.
  split; [exact Hn' | apply bands_of_number, Hn'].
Qed.

Lemma fetched_price_in_one_band_witness :
  price_of_response mid_price = inl mid_price24K
  /\ is_nan (convertTo22K mid_price24K) = false
  /\ in_dead_zone (convertTo22K mid_price24K) = true.
Proof.
  assert (Hp : price_of_response mid_price = inl mid_price24K)
    by (vm_compute; reflexivity).
  destruct (fetched_price_in_one_band mid_price mid_price24K Hp)
    as (_ & _ & Hn & _).
  split; [exact Hp | split; [exact Hn | vm_compute; reflexivity]].
Defined.

(** ** Edges of the price body *)

Section PriceEdges.

Import Json.

Lemma store_members_no_match {A : Type} (tag : string)
  (store : value -> A -> option A) (ms : list (string * value)) :
  forall (x : A) (err : option Json.error),
    existsb (fun kv => key_matches tag (fst kv)) ms = false ->
    store_members tag store ms x err = (x, err).
Proof.
  induction ms as [ | [k v] ms IH]; intros x err H; [reflexivity | ].
  cbn [existsb fst] in H. apply orb_false_elim in H. destruct H as [Hk Hms].
  cbn [store_members]. rewrite Hk. apply IH, Hms.
Qed.

Lemma zero_per_gram : F64.div F64.zero ounceToGram = F64.zero.
Proof. rewrite ounceToGram_value. reflexivity. Qed.

Lemma zero_22K : convertTo22K F64.zero = F64.zero.
Proof.
  unfold convertTo22K. rewrite purityFactor_value, gstFactor_value.
  reflexivity.
Qed.

Lemma zero_under_target :
  F64.leb F64.zero (F64.of_Z targetGoldPrice22K) = true.
Proof. rewrite target_value. reflexivity. Qed.

Lemma price_of_bare_body (body : string) (v : value) :
  read_value body = Some v ->
  lacks_price v = true ->
  price_of_response (Response 200 body) = inl F64.zero.
Proof.
  intros Hv Hl. unfold price_of_response.
  change (negb (200 =? 200)) with false. cbv iota.
  unfold decode_GoldAPIResponse, Decode. rewrite Hv.
  destruct v as [ | b | lit | str | elems | ms]; try discriminate Hl.
  - cbn [store_struct PricePerOunce]. rewrite zero_per_gram. reflexivity.
  - cbn [store_struct]. cbn [lacks_price has_field] in Hl.
    apply negb_true_iff in Hl.
    rewrite (store_members_no_match "price" store_float64 ms _ _ Hl).
    cbn [PricePerOunce]. rewrite zero_per_gram. reflexivity.
Qed.

Lemma append_assoc3 (a b c : string) :
  ((a ++ b) ++ c = a ++ (b ++ c))%string.
Proof. induction a as [ | x a IH]; simpl; [ | rewrite IH]; reflexivity. Qed.

(** The body of a price followed by anything is scanned up to the closing
    brace. *)
Lemma scan_price_body_then (lit rest : string) :
  number_literal lit = true ->
  scan_value (price_body lit ++ rest)
  = Some (Object [("price", Number lit)], rest).
Proof.
  intros H.
  assert (Hshape : (price_body lit ++ rest
                    = "{" ++ quoted "price" ++ ": "
                      ++ (lit ++ String "}" rest))%string).
  { unfold price_body. rewrite !append_assoc3. reflexivity. }
  rewrite Hshape, scan_price_key.
  destruct lit as [ | c lit]; [discriminate | ].
  unfold number_literal in H.
  destruct (num_start c) as [st | ] eqn:Hc; [ | discriminate].
  destruct (num_run st lit) as [st' | ] eqn:Hrun; [ | discriminate].
  change (String c lit ++ String "}" rest)%string
    with (String c (lit ++ String "}" rest)).
  cbn [scan feed]. rewrite (feed_number_start _ _ _ _ Hc).
  rewrite (scan_number lit st st' [c] _ _ "}" rest Hrun H
             (num_next_brace st')).
  reflexivity.
Qed.

End PriceEdges.

(** X9. A response with status 200 whose body is [null], or a JSON object
    without a [price] member, is no error: the fetch returns the price 0,
    the 22K price is 0, and a run that loaded the idle state posts the alert
    for 0.00. *)
Theorem missing_price_is_zero_and_alerts
  (env : Env) (content : option string) (body : string) (v : Json.value) :
  goldapi env = Response 200 body ->
  Json.read_value body = Some v ->
  lacks_price v = true ->
  state_of_file content = idle ->
  price_of_response (goldapi env) = inl F64.zero
  /\ convertTo22K F64.zero = F64.zero
  /\ notifications (trace (snd (run env (start content))))
     = ["22K Gold hit ₹0.00 / gram" ++ Json.newline ++ "Target: ₹12700.00"].
Proof.
  intros Hapi Hv Hl Hs.
  assert (Hp : price_of_response (goldapi env) = inl F64.zero)
    by (rewrite Hapi; apply (price_of_bare_body body v Hv Hl)).
  split; [exact Hp | split; [apply zero_22K | ]].
  assert (Ha : alert_due (convertTo22K F64.zero) (state_of_file content)
               = true)
    by (rewrite Hs, alert_due_idle, zero_22K; apply zero_under_target).
  destruct (error_of_post (pushover env)) as [err | ] eqn:He.
  - rewrite (run_post_failed env content F64.zero err Hp Ha He).
    read_trace.
  - rewrite (run_alerted env content F64.zero Hp Ha He).
    read_trace.
Qed.

Lemma missing_price_is_zero_and_alerts_witness :
  let env := example_env (Response 200 "{}") accepted in
  Json.read_value "{}" = Some (Json.Object [])
  /\ price_of_response (goldapi env) = inl F64.zero
  /\ notifications (trace (snd (run env (start None))))
     = ["22K Gold hit ₹0.00 / gram" ++ Json.newline ++ "Target: ₹12700.00"].
Proof.
  intros env.
  assert (Hv : Json.read_value "{}" = Some (Json.Object []))
    by (vm_compute; reflexivity).
  destruct (missing_price_is_zero_and_alerts env None "{}" _
              eq_refl Hv eq_refl eq_refl) as (Hp & _ & Hn).
  split; [exact Hv | split; [exact Hp | exact Hn]].
Defined.

(** X10. A price written as a JSON number that overflows float64 is a
    decode error, and the run stops at the fetch: nothing is posted and
    nothing is written. *)
Theorem overflowing_price_is_decode_error
  (env : Env) (content : option string) (lit : string) :
  goldapi env = Response 200 (price_body lit) ->
  Json.number_literal lit = true ->
  Json.ParseFloat lit = None ->
  price_of_response (goldapi env)
  = inr (DecodeError Json.UnmarshalTypeError)
  /\ silent (run env (start content))
  /\ fst (run env (start content)) = state_of_file content.
Proof.
  intros Hapi Hlit Hp.
  assert (He : price_of_response (goldapi env)
               = inr (DecodeError Json.UnmarshalTypeError)).
  { rewrite Hapi. unfold price_of_response.
    change (negb (200 =? 200)) with false. cbv iota.
    unfold decode_GoldAPIResponse, Json.Decode, Json.read_value.
    rewrite (scan_price_body lit Hlit).
    cbn [Json.store_struct Json.store_members].
    change (Json.key_matches "price" "price") with true.
    cbn [Json.store_float64]. rewrite Hp. reflexivity. }
  split; [exact He | ].
  rewrite (run_fetch_failed env content _ He). unfold silent.
  read_trace. repeat split.
Qed.

Lemma overflowing_price_is_decode_error_witness :
  let env := example_env (Response 200 (price_body "1e999")) accepted in
  Json.number_literal "1e999" = true
  /\ Json.ParseFloat "1e999" = None
  /\ price_of_response (goldapi env)
     = inr (DecodeError Json.UnmarshalTypeError).
Proof.
  intros env.
  assert (Hlit : Json.number_literal "1e999" = true)
    by (vm_compute; reflexivity).
  assert (Hp : Json.ParseFloat "1e999" = None) by (vm_compute; reflexivity).
  destruct (overflowing_price_is_decode_error env None "1e999"
              eq_refl Hlit Hp) as (He & _).
  split; [exact Hlit | split; [exact Hp | exact He]].
Defined.

(** X11. The fetch reads the first JSON value of the body and no further:
    whatever follows the closing brace of [{"price": lit}], the price
    returned is the same. *)
Theorem bytes_after_price_body_are_ignored
  (lit rest : string) (p : float64) :
  Json.number_literal lit = true ->
  Json.ParseFloat lit = Some p ->
  price_of_response (Response 200 (price_body lit ++ rest))
  = inl (F64.div p ounceToGram).
Proof.
  intros Hlit Hp. unfold price_of_response.
  change (negb (200 =? 200)) with false. cbv iota.
  unfold decode_GoldAPIResponse, Json.Decode, Json.read_value.
  rewrite (scan_price_body_then lit rest Hlit).
  cbn [Json.store_struct Json.store_members].
  change (Json.key_matches "price" "price") with true.
  cbn [Json.store_float64]. rewrite Hp. reflexivity.
Qed.

Lemma bytes_after_price_body_are_ignored_witness :
  Json.number_literal "387000.0" = true
  /\ price_of_response
       (Response 200 (price_body "387000.0" ++ "<html>not json"))
     = inl low_price24K.
Proof.
  assert (Hlit : Json.number_literal "387000.0" = true)
    by (vm_compute; reflexivity).
  assert (Hp : Json.ParseFloat "387000.0"
               = Some (S754_finite false 6648609374208000 (-34)))
    by (vm_compute; reflexivity).
  split; [exact Hlit | ].
  rewrite (bytes_after_price_body_are_ignored "387000.0" "<html>not json"
             _ Hlit Hp).
  vm_compute. reflexivity.
Defined.

(** ** Edges of the state file *)

Section StateFileEdges.

Import Json.

(** A saved state followed by anything is scanned up to its closing
    brace. *)
Lemma scan_saved_then (s : State) (rest : string) :
  scan_value (marshal_State s ++ rest)
  = Some (Object [("alert_triggered", Bool (AlertTriggered s))], rest).
Proof. destruct s as [[ | ]]; reflexivity. Qed.

Lemma store_members_filter {A : Type} (tag : string)
  (store : value -> A -> option A) (ms : list (string * value)) :
  forall (x : A) (err : option Json.error),
    store_members tag store ms x err
    = store_members tag store (members_for tag ms) x err.
Proof.
  induction ms as [ | [k v] ms IH]; intros x err; [reflexivity | ].
  cbn [members_for filter fst]. cbn [store_members].
  destruct (key_matches tag k) eqn:Hk.
  - cbn [store_members]. rewrite Hk.
    destruct (store v x); apply IH.
  - apply IH.
Qed.

End StateFileEdges.

(** X12. A saved state file with bytes added at its end loads as saved
    when the bytes are white space (a final newline, say) and as the default
    idle state when they are anything else: [json.Unmarshal] takes the whole
    file or nothing. *)
Theorem saved_file_with_trailing_bytes (s : State) (rest : string) :
  state_of_file (Some (marshal_State s ++ rest))
  = if Json.all_space rest then s else idle.
Proof.
  unfold state_of_file, Json.Unmarshal, Json.parse.
  rewrite scan_saved_then.
  destruct (Json.all_space rest); [ | reflexivity].
  destruct s as [[ | ]]; reflexivity.
Qed.

(** X13. A saved state file cut short at any point, as a write that did
    not finish leaves it, loads as the default idle state. *)
Theorem truncated_saved_file_loads_idle (s : State) (n : nat) :
  (n < String.length (marshal_State s))%nat ->
  state_of_file (Some (substring 0 n (marshal_State s))) = idle.
Proof.
  intros H. destruct s as [[ | ]].
  - change (String.length (marshal_State {| AlertTriggered := true |}))
      with 29%nat in H.
    do 29 (destruct n as [ | n]; [vm_compute; reflexivity | ]). lia.
  - change (String.length (marshal_State {| AlertTriggered := false |}))
      with 30%nat in H.
    do 30 (destruct n as [ | n]; [vm_compute; reflexivity | ]). lia.
Qed.

Lemma truncated_saved_file_loads_idle_witness :
  (20 < String.length (marshal_State triggered))%nat
  /\ state_of_file (Some (substring 0 20 (marshal_State triggered))) = idle.
Proof.
  assert (H : (20 < String.length (marshal_State triggered))%nat)
    by (vm_compute; lia).
  split; [exact H | ].
  apply (truncated_saved_file_loads_idle triggered 20 H).
Defined.

(** X14. Members of the state file under other keys than [alert_triggered]
    are ignored: two files that are JSON objects with the same members for
    that field, in the same order, load as the same state. *)
Theorem unknown_members_are_ignored
  (data1 data2 : string) (ms1 ms2 : list (string * Json.value)) :
  Json.parse data1 = Some (Json.Object ms1) ->
  Json.parse data2 = Some (Json.Object ms2) ->
  members_for "alert_triggered" ms1 = members_for "alert_triggered" ms2 ->
  state_of_file (Some data1) = state_of_file (Some data2).
Proof.
  intros H1 H2 Hm. unfold state_of_file, Json.Unmarshal.
  rewrite H1, H2. cbn [Json.store_struct].
  rewrite (store_members_filter "alert_triggered" Json.store_bool ms1),
    (store_members_filter "alert_triggered" Json.store_bool ms2), Hm.
  reflexivity.
Qed.

Lemma unknown_members_are_ignored_witness :
  state_of_file (Some annotated_file)
  = state_of_file (Some (marshal_State triggered)).
Proof.
  apply (unknown_members_are_ignored annotated_file
           (marshal_State triggered)
           [("note", Json.Array [Json.Number "1"; Json.Number "2"]);
            ("alert_triggered", Json.Bool true)]
           [("alert_triggered", Json.Bool true)]);
    vm_compute; reflexivity.
Defined.

(** ** What is written *)

(** X15. Whatever a run writes, it writes to [state.json], and what it
    writes is a file that loads as the state the run ends with. *)
Theorem every_write_is_the_final_state
  (env : Env) (content : option string) (name data : string) :
  In (name, data) (writes (trace (snd (run env (start content))))) ->
  name = stateFile
  /\ state_of_file (Some data) = fst (run env (start content)).
Proof.
  destruct (run_cases env content)
    as [(err & Hp & Hrun)
       | (price24K & Hp & [(err & Ha & He & Hrun)
                          | [(Ha & He & Hrun)
                            | [(Ha & Hr & Hrun) | (Ha & Hr & Hrun)]]])];
    rewrite Hrun; read_trace; cbn [writes app price_lines prologue post save];
    intros Hin; try contradiction;
    destruct Hin as [Heq | []]; injection Heq as <- <-;
    (split; [reflexivity | apply state_of_marshal]).
Qed.

Lemma every_write_is_the_final_state_witness :
  let env := example_env high_price accepted in
  let content := Some (marshal_State triggered) in
  In (stateFile, marshal_State idle)
    (writes (trace (snd (run env (start content)))))
  /\ state_of_file (Some (marshal_State idle))
     = fst (run env (start content)).
Proof.
  intros env content.
  assert (Hin : In (stateFile, marshal_State idle)
                  (writes (trace (snd (run env (start content))))))
    by (vm_compute; left; reflexivity).
  split; [exact Hin | ].
  apply (every_write_is_the_final_state env content _ _ Hin).
Defined.

